(** * Opposition-evidence pipeline (opposition_analyzer.py)

    A shallow embedding of [OppositionAnalyzer]: query synthesis, the
    search client, the content fetcher, the evidence analyzer and the
    per-project orchestrator, followed by the properties of the
    pipeline's specification.

    Python values are modelled as follows.
    - [str] is a list of Unicode code points, so that [len], slicing,
      [find] and [strip] count what Python counts.
    - An exception is a value of [exn]; a computation that may raise
      returns a [result].  Only subclasses of [Exception] are modelled:
      [json.JSONDecodeError], which one handler of the source names, and
      the others, which the [except Exception] handlers catch alike.
      Logging is left out.
    - The network, the generative model, the HTML and JSON libraries and
      the file system are outside the program: they are the fields of an
      environment [Env], each one a function of the current [World]
      (files written so far and the history of external calls), so that
      two calls with the same argument may answer differently. *)

From Stdlib Require Import Ascii String DecimalString PrimFloat Uint63 Sorted.
From stdpp Require Import base option list gmap.

Local Open Scope N_scope.
Local Open Scope list_scope.

(** ** Python strings *)

Abbreviation str := (list N).

(** An ASCII literal of the source as a list of code points. *)
Definition u (s : string) : str :=
  map N_of_ascii (list_ascii_of_string s).
Arguments u s%_string.

(** The double quote character. *)
Definition dq : str := [34].
(** A double-quoted ASCII word, as it appears inside a JSON text. *)
Definition quoted (s : string) : str := dq ++ u s ++ dq.
Arguments quoted s%_string.

(** [str(n)] for a non-negative integer. *)
Definition str_of_nat (n : nat) : str :=
  u (NilZero.string_of_uint (Nat.to_uint n)).

Module Py.

Definition str_eqb (a b : str) : bool := bool_decide (a = b).

(** [s.startswith(sub)] *)
Fixpoint startswith (sub s : str) : bool :=
  match sub, s with
  | [], _ => true
  | _ :: _, [] => false
  | a :: sub', b :: s' => (a =? b) && startswith sub' s'
  end.

(** [sub in s] *)
Fixpoint contains (sub s : str) : bool :=
  startswith sub s ||
  match s with
  | [] => false
  | _ :: s' => contains sub s'
  end.

(** The lowest index [j >= i] at which [sub] occurs, where [s] is the
    text from index [i] on. *)
Fixpoint find_from (sub s : str) (i : nat) : option nat :=
  if startswith sub s then Some i
  else match s with
       | [] => None
       | _ :: s' => find_from sub s' (S i)
       end.

(** [s.find(sub, start)]: [-1] when there is no occurrence. *)
Definition find (sub s : str) (start : nat) : Z :=
  if bool_decide (start ≤ length s)%nat then
    match find_from sub (drop start s) start with
    | Some i => Z.of_nat i
    | None => (-1)%Z
    end
  else (-1)%Z.

(** The highest index at which [sub] occurs. *)
Fixpoint rfind_from (sub s : str) (i : nat) : option nat :=
  match s with
  | [] => if startswith sub s then Some i else None
  | _ :: s' =>
      match rfind_from sub s' (S i) with
      | Some j => Some j
      | None => if startswith sub s then Some i else None
      end
  end.

(** [s.rfind(sub)] *)
Definition rfind (sub s : str) : Z :=
  match rfind_from sub s 0 with
  | Some i => Z.of_nat i
  | None => (-1)%Z
  end.

(** A slice bound: negative bounds count from the end, and every bound
    is clipped to [0 .. len]. *)
Definition clip (len : nat) (i : Z) : nat :=
  if (i <? 0)%Z then Z.to_nat (Z.max 0 (i + Z.of_nat len))
  else Nat.min (Z.to_nat i) len.

(** [s[a:b]] *)
Definition slice (s : str) (a b : Z) : str :=
  let a' := clip (length s) a in
  let b' := clip (length s) b in
  take (b' - a') (drop a' s).

(** [c.isspace()]: the code points Python's [str.strip()] removes. *)
Definition isspace (c : N) : bool :=
  ((9 <=? c) && (c <=? 13)) || ((28 <=? c) && (c <=? 32)) ||
  (c =? 133) || (c =? 160) || (c =? 5760) ||
  ((8192 <=? c) && (c <=? 8202)) || (c =? 8232) || (c =? 8233) ||
  (c =? 8239) || (c =? 8287) || (c =? 12288).

Fixpoint lstrip (s : str) : str :=
  match s with
  | [] => []
  | c :: s' => if isspace c then lstrip s' else s
  end.

(** [s.strip()] *)
Definition strip (s : str) : str :=
  reverse (lstrip (reverse (lstrip s))).

(** [s.replace(old, new)] for a non-empty [old]: matches are taken from
    the left and do not overlap; [skip] counts the characters of a match
    still to be passed over. *)
Fixpoint replace_go (old new s : str) (skip : nat) : str :=
  match s with
  | [] => []
  | c :: s' =>
      match skip with
      | S k => replace_go old new s' k
      | O =>
          if startswith old s
          then new ++ replace_go old new s' (length old - 1)
          else c :: replace_go old new s' 0
      end
  end.

Definition replace (old new s : str) : str := replace_go old new s 0.

(** [sep.join(parts)] *)
Fixpoint join (sep : str) (parts : list str) : str :=
  match parts with
  | [] => []
  | [p] => p
  | p :: rest => p ++ sep ++ join sep rest
  end.

(** Truthiness of a string. *)
Definition truthy (s : str) : bool :=
  match s with [] => false | _ => true end.

End Py.

(** ** JSON values, as [json.loads] builds them *)

Inductive json :=
| JNull
| JBool (b : bool)
| JInt (z : Z)
| JFloat (f : float)
| JStr (s : str)
| JArr (items : list json)
| JObj (fields : list (str * json)).

(** [d.get(k)] on the pairs of a parsed object: a later duplicate of a
    key replaces an earlier one. *)
Fixpoint dict_get (k : str) (fields : list (str * json)) : option json :=
  match fields with
  | [] => None
  | (k', v) :: rest =>
      match dict_get k rest with
      | Some v' => Some v'
      | None => if Py.str_eqb k k' then Some v else None
      end
  end.

(** ** Exceptions *)

Inductive exn :=
| JSONDecodeError (msg : str)
| Exception (msg : str).

(** [str(e)] *)
Definition str_of_exn (e : exn) : str :=
  match e with
  | JSONDecodeError m => m
  | Exception m => m
  end.

Inductive result (A : Type) :=
| Ok (a : A)
| Raise (e : exn).
Arguments Ok {A} a.
Arguments Raise {A} e.

(** ** Data model (the pydantic models of the source) *)

Record SearchQueries := {
  english_query : str;
  bangla_query : str
}.

Record SearchResult := {
  title : str;
  link : str;
  description : str;
  position : nat
}.

Record SearchResults := {
  organic_results : list SearchResult;
  total_results : nat;
  search_query : str;
  language : str
}.

Record ContentExtraction := {
  url : str;
  ce_title : str;
  content : str;
  extraction_success : bool;
  error_message : option str
}.

Record OppositionAnalysis := {
  has_opposition_evidence : bool;
  opposition_types : list str;
  summary : str;
  confidence_score : float;
  sources : list str
}.

(** A value of a project record ([Dict[str, Any]]): a string, or any
    other object, of which only its [str()] is kept. *)
Inductive pyval :=
| PStr (s : str)
| PObj (shown : str).

(** How an f-string renders a value. *)
Definition format (v : pyval) : str :=
  match v with
  | PStr s => s
  | PObj s => s
  end.

(** [project_data.get(key, default)] *)
Definition pd_get (project_data : gmap str pyval) (key : string)
    (fallback : string) : pyval :=
  default (PStr (u fallback)) (project_data !! u key).
Arguments pd_get project_data key%_string fallback%_string.

(** The report [analyze_project] returns: the dictionary of the normal
    path, or the one of the [except] branch. *)
Inductive ProjectReport :=
| Analysed (project_id project_name : pyval) (analysis : OppositionAnalysis)
    (total_urls_found content_extracted : nat)
| Failed (project_id project_name : pyval) (error : str).

(** ** The outside world *)

Inductive event :=
| EvModel (prompt : str)
| EvPost (target : str)
| EvGet (target : str)
| EvPartition (target : str)
| EvWrite (path : str)
| EvSleep (seconds : nat).

Inductive file_content :=
| Text (s : str)
| Document (j : json).

Record World := {
  files : gmap str file_content;
  history : list event
}.

(** A result block of the rendered search page, through the queries the
    parser makes on it. *)
Record anchor := {
  href : str;
  h3_text : option str;
  a_text : str
}.

Record element := {
  main_link : option anchor;
  spans : list str;
  all_text : str
}.

Record Response := {
  status_code : nat;
  text : str;
  json_body : result json
}.

(** The collaborators of the pipeline.  A field that takes a [World] is
    an external service; the others are library functions. *)
Record Env := {
  (** [client.models.generate_content(model, contents).text] *)
  generate_content : World -> str -> result (option str);
  (** [requests.post] to the search proxy, for a search URL *)
  requests_post : World -> str -> result Response;
  (** [requests.get]: status code and body *)
  requests_get : World -> str -> result (nat * str);
  (** [partition(url=...)]: the [text] of each element *)
  partition : World -> str -> result (list str);
  (** [open(path, 'w')] and the write that follows *)
  open_write : World -> str -> result unit;
  (** [urllib.parse.quote_plus], total on Unicode text *)
  quote_plus : str -> str;
  (** [json.loads] *)
  json_loads : str -> result json;
  (** [BeautifulSoup(body, 'html.parser').select('div.tF2Cxc')] *)
  select_results : str -> result (list element);
  (** [group_broken_paragraphs] *)
  group_broken_paragraphs : str -> result str;
  (** [str.lower] *)
  lower : str -> str;
  (** [SearchQueries] built from the parsed fields *)
  validate_queries : json -> result SearchQueries;
  (** [OppositionAnalysis] built from the parsed fields *)
  validate_analysis : json -> result OppositionAnalysis
}.

(** ** Computations: state passing with exceptions *)

Definition M (A : Type) : Type := World -> result A * World.

Definition ret {A} (a : A) : M A := fun w => (Ok a, w).

Definition raise {A} (e : exn) : M A := fun w => (Raise e, w).

Definition bind {A B} (m : M A) (k : A -> M B) : M B :=
  fun w =>
    match m w with
    | (Ok a, w') => k a w'
    | (Raise e, w') => (Raise e, w')
    end.

Notation "'do' x <- m ; k" := (bind m (fun x => k))
  (at level 10, x name, m at level 99, k at level 200).

(** A pure step that may raise. *)
Definition lift {A} (r : result A) : M A := fun w => (r, w).

(** [try: m  except Exception as e: h e] *)
Definition try_catch {A} (m : M A) (h : exn -> M A) : M A :=
  fun w =>
    match m w with
    | (Ok a, w') => (Ok a, w')
    | (Raise e, w') => h e w'
    end.

(** [try: m  except json.JSONDecodeError as e: h e] *)
Definition try_catch_json {A} (m : M A) (h : exn -> M A) : M A :=
  fun w =>
    match m w with
    | (Raise (JSONDecodeError msg), w') => h (JSONDecodeError msg) w'
    | other => other
    end.

Definition record_event (ev : event) (w : World) : World :=
  {| files := files w; history := history w ++ [ev] |}.

(** An external call: the environment answers in the current world and
    the call is added to the history. *)
Definition call {A} (answer : World -> result A) (ev : event) : M A :=
  fun w => (answer w, record_event ev w).

(** Writing a file: on success the file holds exactly [data]. *)
Definition write_file (env : Env) (path : str) (data : file_content)
    : M unit :=
  fun w =>
    match open_write env w path with
    | Ok _ =>
        (Ok tt, {| files := <[path := data]> (files w);
                   history := history w ++ [EvWrite path] |})
    | Raise e => (Raise e, record_event (EvWrite path) w)
    end.

(** [time.sleep(seconds)] *)
Definition sleep (seconds : nat) : M unit :=
  fun w => (Ok tt, record_event (EvSleep seconds) w).

(** ** The pipeline *)

Definition nl : str := [10].

(** The Bangla word the fallback query ends with. *)
Definition bangla_conflict : str := [2488; 2434; 2456; 2494; 2468].

Section Pipeline.

Variable env : Env.

(** The block of project facts both prompts embed. *)
Definition project_context (project_data : gmap str pyval) : str :=
  nl ++
  u "        Project Name: " ++ format (pd_get project_data "project_name" "Unknown") ++ nl ++
  u "        Location: " ++ format (pd_get project_data "location" "Unknown") ++ nl ++
  u "        Capacity: " ++ format (pd_get project_data "capacity" "Unknown") ++ nl ++
  u "        Agency: " ++ format (pd_get project_data "agency" "Unknown") ++ nl ++
  u "        Status: " ++ format (pd_get project_data "present_status" "Unknown") ++ nl ++
  u "        ".

Definition queries_prompt (project_data : gmap str pyval) : str :=
  nl ++
  u "        Based on the following renewable energy project information, generate two simple search queries to find any information about this project:" ++ nl ++
  nl ++
  u "        " ++ project_context project_data ++ nl ++
  nl ++
  u "        Generate:" ++ nl ++
  u "        1. An English search query with just the project name, location, and conflict - keep it simple and general, NO QUOTES" ++ nl ++
  u "        2. A Bangla search query with the project name, location, and conflict in Bangla - keep it simple and general, NO QUOTES" ++ nl ++
  nl ++
  u "        The queries should be broad enough to find any information about this project including news articles, reports, EIA documents, financial information, PPA details, tariff rates, or any other project-related content. Don't make them too specific. Do not use quotes around any part of the query." ++ nl ++
  nl ++
  u "        Return the queries in JSON format with fields " ++ quoted "english_query" ++ u " and " ++ quoted "bangla_query" ++ u "." ++ nl ++
  u "        ".

(** [response.text.strip()]: a reply without text has no [strip]. *)
Definition response_text (reply : option str) : result str :=
  match reply with
  | Some t => Ok (Py.strip t)
  | None =>
      Raise (Exception (u "'NoneType' object has no attribute 'strip'"))
  end.

Definition fence_open : str := u "```json".
Definition fence : str := u "```".

(** The text handed to [json.loads] (lines 128-140 and 428-438 of the
    source are the same statements, up to the default of the last
    branch, which is only computed there). *)
Definition extract_json_text (response_text : str)
    (fallback : result str) : result str :=
  if Py.contains fence_open response_text then
    let json_start := (Py.find fence_open response_text 0 + 7)%Z in
    let json_end := Py.find fence response_text (Z.to_nat json_start) in
    Ok (Py.strip (Py.slice response_text json_start json_end))
  else if Py.contains (u "{") response_text
          && Py.contains (u "}") response_text then
    let json_start := Py.find (u "{") response_text 0 in
    let json_end := (Py.rfind (u "}") response_text + 1)%Z in
    Ok (Py.slice response_text json_start json_end)
  else fallback.

(** [a + b] where [a] is a string. *)
Definition concat (a : str) (b : pyval) : result str :=
  match b with
  | PStr s => Ok (a ++ s)
  | PObj _ =>
      Raise (Exception (u "can only concatenate str to str"))
  end.

(** The JSON text written by hand when the reply has neither a fence
    nor braces. *)
Definition manual_queries_json (project_data : gmap str pyval)
    : result str :=
  let project_name := pd_get project_data "project_name" "Unknown" in
  let location := pd_get project_data "location" "Unknown" in
  match concat (u "{" ++ quoted "english_query" ++ u ": " ++ dq) project_name with
  | Raise e => Raise e
  | Ok s1 =>
  match concat (s1 ++ u " ") location with
  | Raise e => Raise e
  | Ok s2 =>
  match concat (s2 ++ u " conflict" ++ dq ++ u ", " ++ quoted "bangla_query"
                   ++ u ": " ++ dq) project_name with
  | Raise e => Raise e
  | Ok s3 =>
  match concat (s3 ++ u " ") location with
  | Raise e => Raise e
  | Ok s4 => Ok (s4 ++ u " " ++ bangla_conflict ++ dq ++ u "}")
  end end end end.

(** The queries of the [except] branch. *)
Definition fallback_queries (project_data : gmap str pyval)
    : SearchQueries :=
  let project_name := pd_get project_data "project_name" "Unknown" in
  let location := pd_get project_data "location" "Unknown" in
  {| english_query :=
       format project_name ++ u " " ++ format location ++ u " conflict";
     bangla_query :=
       format project_name ++ u " " ++ format location ++ u " "
         ++ bangla_conflict |}.

(** The [try] block of [generate_search_queries]. *)
Definition generate_search_queries_try (project_data : gmap str pyval)
    : M SearchQueries :=
  let prompt := queries_prompt project_data in
  do response <- call (fun w => generate_content env w prompt) (EvModel prompt);
  do response_text <- lift (response_text response);
  do json_text <- lift (extract_json_text response_text
                          (manual_queries_json project_data));
  do queries_data <- lift (json_loads env json_text);
  do queries <- lift (validate_queries env queries_data);
  ret queries.

Definition generate_search_queries (project_data : gmap str pyval)
    : M SearchQueries :=
  try_catch (generate_search_queries_try project_data)
    (fun e => ret (fallback_queries project_data)).

(** *** Search client *)

Definition empty_results (query language : str) : SearchResults :=
  {| organic_results := []; total_results := 0%nat;
     search_query := query; language := language |}.

Definition nav_words : list str :=
  [u "web"; u "images"; u "videos"; u "news"; u "shopping"].

(** The test a span passes to become the description. *)
Definition is_snippet (span_text : str) : bool :=
  (20 <? length span_text)%nat
  && negb (existsb (fun word => Py.contains word (lower env span_text))
             nav_words).

(** The first span that passes, or the empty string. *)
Fixpoint first_snippet (snippet_spans : list str) : str :=
  match snippet_spans with
  | [] => []
  | span_text :: rest =>
      if is_snippet span_text then span_text else first_snippet rest
  end.

Definition element_title_link (el : element) : str * str :=
  match main_link el with
  | Some a =>
      (match h3_text a with
       | Some t => t
       | None => a_text a
       end, href a)
  | None => ([], [])
  end.

Definition element_description (el : element) (title : str) : str :=
  let description := first_snippet (spans el) in
  let description :=
    if Py.truthy description then description
    else if Py.truthy title && Py.contains title (all_text el)
    then Py.strip (Py.replace title [] (all_text el))
    else all_text el in
  if Py.truthy description then
    Py.strip
      (Py.replace (u "Accessibility help") []
         (Py.replace (u "Press/to jump to the search box") [] description))
  else description.

(** The body of the loop over [enumerate(result_elements[:10])], from
    index [i] on. *)
Fixpoint parse_elements (i : nat) (elements : list element)
    : list SearchResult :=
  match elements with
  | [] => []
  | el :: rest =>
      let '(title, link) := element_title_link el in
      let description := element_description el title in
      (if Py.truthy title || Py.truthy link
       then [ {| title := title; link := link;
                 description := description; position := i + 1 |} ]
       else [])
      ++ parse_elements (S i) rest
  end.

(** [list(search_data.keys())] *)
Definition json_keys (search_data : json) : result (list str) :=
  match search_data with
  | JObj fields => Ok (map fst fields)
  | _ => Raise (Exception (u "object has no attribute 'keys'"))
  end.

(** [search_data[key]] when [key in search_data] *)
Definition json_field (key : string) (search_data : json) : option json :=
  match search_data with
  | JObj fields => dict_get (u key) fields
  | _ => None
  end.
Arguments json_field key%_string search_data.

(** The statements under [if response.status_code == 200: try:]. *)
Definition parse_search_response (response : Response)
    (query language : str) : M SearchResults :=
  do search_data <- lift (json_body response);
  do keys <- lift (json_keys search_data);
  do organic_results <-
    match json_field "body" search_data with
    | Some (JStr body) =>
        do result_elements <- lift (select_results env body);
        ret (parse_elements 0 (take 10 result_elements))
    | _ => ret []
    end;
  ret {| organic_results := organic_results;
         total_results := length organic_results;
         search_query := query; language := language |}.

Definition search_url (query : str) : str :=
  u "https://www.google.com/search?q=" ++ quote_plus env query.

(** The outer [try] block of [search_with_brightdata]. *)
Definition search_with_brightdata_try (query language : str)
    : M SearchResults :=
  let target := search_url query in
  do response <- call (fun w => requests_post env w target) (EvPost target);
  if (status_code response =? 200)%nat then
    try_catch_json (parse_search_response response query language)
      (fun e => ret (empty_results query language))
  else ret (empty_results query language).

Definition search_with_brightdata (query language : str)
    : M SearchResults :=
  try_catch (search_with_brightdata_try query language)
    (fun e => ret (empty_results query language)).

(** *** Content fetcher *)

(** The inner [try]/[except] of the loop body: the reader service
    first, the local extractor when that fails. *)
Definition fetch_content (result : SearchResult) : M str :=
  let jina_url := u "https://r.jina.ai/" ++ link result in
  try_catch
    (do jina_response <-
       call (fun w => requests_get env w jina_url) (EvGet jina_url);
     if (fst jina_response =? 200)%nat then ret (snd jina_response)
     else raise (Exception (u "r.jina.ai returned status "
                              ++ str_of_nat (fst jina_response))))
    (fun jina_error =>
       do elements <-
         call (fun w => partition env w (link result))
           (EvPartition (link result));
       ret (Py.join nl (filter (fun t => Py.truthy t = true) elements))).

Definition truncate (cleaned_content : str) : str :=
  if (15000 <? Z.of_nat (length cleaned_content))%Z
  then Py.slice cleaned_content 0 15000 ++ u "... [Content truncated]"
  else cleaned_content.

Definition md_path (project_id : str) (i : nat) : str :=
  u "content/" ++ project_id ++ u "_" ++ str_of_nat (i + 1) ++ u ".md".

(** The outer [try] block of the loop body. *)
Definition extract_one_try (project_id : str) (i : nat)
    (result : SearchResult) : M ContentExtraction :=
  do content <- fetch_content result;
  do cleaned_content <- lift (group_broken_paragraphs env content);
  let cleaned_content := truncate cleaned_content in
  do saved <-
    try_catch (write_file env (md_path project_id i) (Text content))
      (fun md_error => ret tt);
  ret {| url := link result; ce_title := title result;
         content := cleaned_content; extraction_success := true;
         error_message := None |}.

Definition failed_extraction (result : SearchResult) (e : exn)
    : ContentExtraction :=
  {| url := link result; ce_title := title result; content := [];
     extraction_success := false;
     error_message := Some (str_of_exn e) |}.

(** One iteration of the loop, without the delay. *)
Definition extract_one (project_id : str) (i : nat)
    (result : SearchResult) : M ContentExtraction :=
  try_catch (extract_one_try project_id i result)
    (fun e => ret (failed_extraction result e)).

(** The loop of [extract_content_from_urls], from index [i] on, with the
    artifacts appended so far. *)
Fixpoint extract_loop (project_id : str) (i : nat)
    (results : list SearchResult)
    (content_extractions : list ContentExtraction)
    : M (list ContentExtraction) :=
  match results with
  | [] => ret content_extractions
  | result :: rest =>
      do extraction <- extract_one project_id i result;
      do slept <- sleep 2;
      extract_loop project_id (S i) rest
        (content_extractions ++ [extraction])
  end.

Definition extract_content_from_urls (search_results : SearchResults)
    (project_id : str) : M (list ContentExtraction) :=
  extract_loop project_id 0 (organic_results search_results) [].

(** *** Evidence analyzer *)

(** The loop that gathers the text of the successful, non-empty
    artifacts, with the accumulators of the source. *)
Fixpoint combine_content (content_extractions : list ContentExtraction)
    (all_content : str) (sources_with_content : list str)
    : str * list str :=
  match content_extractions with
  | [] => (all_content, sources_with_content)
  | extraction :: rest =>
      if extraction_success extraction && Py.truthy (content extraction)
      then
        combine_content rest
          (all_content
             ++ (nl ++ nl ++ u "--- Content from " ++ url extraction
                   ++ u " ---" ++ nl)
             ++ (u "Title: " ++ ce_title extraction ++ nl)
             ++ (u "Content: " ++ content extraction ++ nl))
          (sources_with_content ++ [url extraction])
      else combine_content rest all_content sources_with_content
  end.

Definition no_content_analysis : OppositionAnalysis :=
  {| has_opposition_evidence := false;
     opposition_types := [];
     summary :=
       u "No content could be extracted from search results to analyze.";
     confidence_score := 0%float;
     sources := [] |}.

Definition error_analysis (e : exn) : OppositionAnalysis :=
  {| has_opposition_evidence := false;
     opposition_types := [];
     summary := u "Error during analysis: " ++ str_of_exn e;
     confidence_score := 0%float;
     sources := [] |}.

Definition analysis_prompt (project_data : gmap str pyval)
    (all_content : str) : str :=
  nl ++
  u "        Analyze the following content for any information related to this renewable energy project, including opposition, conflict, or any other project details:" ++ nl ++
  nl ++
  u "        PROJECT INFORMATION:" ++ nl ++
  u "        " ++ project_context project_data ++ nl ++
  nl ++
  u "        EXTRACTED CONTENT:" ++ nl ++
  u "        " ++ all_content ++ nl ++
  nl ++
  u "        Please analyze this content and determine:" ++ nl ++
  u "        1. Is there evidence of opposition or conflict related to this specific project?" ++ nl ++
  u "        2. What types of opposition are mentioned (e.g., land acquisition protests, environmental concerns, farmer protests, etc.)?" ++ nl ++
  u "        3. What other project information is available (EIA reports, financial details, tariff rates, PPA information, etc.)?" ++ nl ++
  u "        4. Provide a detailed summary of all findings" ++ nl ++
  u "        5. Rate your confidence in this analysis (0.0 to 1.0)" ++ nl ++
  u "        6. List the specific URLs that contained evidence" ++ nl ++
  nl ++
  u "        Return your analysis in JSON format with these fields:" ++ nl ++
  u "        - has_opposition_evidence: boolean" ++ nl ++
  u "        - opposition_types: array of strings" ++ nl ++
  u "        - summary: detailed string" ++ nl ++
  u "        - confidence_score: number between 0.0 and 1.0" ++ nl ++
  u "        - sources: array of URLs that contained evidence" ++ nl ++
  nl ++
  u "        Be specific about the project name and location when making your analysis. Include any relevant project information found, not just opposition." ++ nl ++
  u "        ".

(** The JSON text used when the reply has neither a fence nor braces. *)
Definition default_analysis_json : str :=
  u "{" ++ quoted "has_opposition_evidence" ++ u ": false, "
    ++ quoted "opposition_types" ++ u ": [], "
    ++ quoted "summary" ++ u ": " ++ quoted "Could not parse analysis results"
    ++ u ", " ++ quoted "confidence_score" ++ u ": 0.0, "
    ++ quoted "sources" ++ u ": []}".

(** The [try] block of [analyze_opposition]. *)
Definition analyze_opposition_try (prompt : str) : M OppositionAnalysis :=
  do response <- call (fun w => generate_content env w prompt) (EvModel prompt);
  do response_text <- lift (response_text response);
  do json_text <- lift (extract_json_text response_text
                          (Ok default_analysis_json));
  do analysis_data <- lift (json_loads env json_text);
  do analysis <- lift (validate_analysis env analysis_data);
  ret analysis.

Definition analyze_opposition (project_data : gmap str pyval)
    (content_extractions : list ContentExtraction) : M OppositionAnalysis :=
  let '(all_content, sources_with_content) :=
    combine_content content_extractions [] [] in
  if negb (Py.truthy (Py.strip all_content)) then ret no_content_analysis
  else
    try_catch
      (analyze_opposition_try (analysis_prompt project_data all_content))
      (fun e => ret (error_analysis e)).

(** *** Persistence and orchestration *)

(** [model_dump()] of each model. *)
Definition dump_queries (q : SearchQueries) : json :=
  JObj [(u "english_query", JStr (english_query q));
        (u "bangla_query", JStr (bangla_query q))].

Definition dump_result (r : SearchResult) : json :=
  JObj [(u "title", JStr (title r)); (u "link", JStr (link r));
        (u "description", JStr (description r));
        (u "position", JInt (Z.of_nat (position r)))].

Definition dump_extraction (c : ContentExtraction) : json :=
  JObj [(u "url", JStr (url c)); (u "title", JStr (ce_title c));
        (u "content", JStr (content c));
        (u "extraction_success", JBool (extraction_success c));
        (u "error_message",
         match error_message c with Some m => JStr m | None => JNull end)].

Definition dump_analysis (a : OppositionAnalysis) : json :=
  JObj [(u "has_opposition_evidence", JBool (has_opposition_evidence a));
        (u "opposition_types", JArr (map JStr (opposition_types a)));
        (u "summary", JStr (summary a));
        (u "confidence_score", JFloat (confidence_score a));
        (u "sources", JArr (map JStr (sources a)))].

Definition results_dict (r : SearchResults) : json :=
  JObj [(u "organic_results", JArr (map dump_result (organic_results r)));
        (u "total_results", JInt (Z.of_nat (total_results r)));
        (u "search_query", JStr (search_query r));
        (u "language", JStr (language r))].

(** The directory of a step; any other step is a [ValueError]. *)
Definition step_dir (step : str) : result str :=
  if Py.str_eqb step (u "search") then Ok (u "search")
  else if Py.str_eqb step (u "content") then Ok (u "content")
  else if Py.str_eqb step (u "result") then Ok (u "result")
  else if Py.str_eqb step (u "summary") then Ok (u "summary")
  else Raise (Exception (u "Invalid step: " ++ step)).

Definition save_data (project_id : pyval) (step : str) (data : json)
    : M unit :=
  do dir <- lift (step_dir step);
  write_file env (dir ++ u "/" ++ format project_id ++ u ".json")
    (Document data).

Definition combined_query (queries : SearchQueries) : str :=
  u "English: " ++ english_query queries ++ u " | Bangla: "
    ++ bangla_query queries.

(** The mixed-language set that feeds extraction. *)
Definition combined_results (english_results bangla_results : SearchResults)
    (queries : SearchQueries) : SearchResults :=
  {| organic_results :=
       organic_results english_results ++ organic_results bangla_results;
     total_results :=
       total_results english_results + total_results bangla_results;
     search_query := combined_query queries;
     language := u "mixed" |}.

(** Steps 1 and 2 of [analyze_project], up to the combined set. *)
Definition search_both (project_id : pyval)
    (project_data : gmap str pyval) : M SearchResults :=
  do queries <- generate_search_queries project_data;
  do saved <- save_data project_id (u "search") (dump_queries queries);
  do english_results <-
    search_with_brightdata (english_query queries) (u "en");
  do bangla_results <-
    search_with_brightdata (bangla_query queries) (u "bn");
  let all_results :=
    combined_results english_results bangla_results queries in
  do saved <-
    save_data project_id (u "result")
      (JObj [(u "english_search", results_dict english_results);
             (u "bangla_search", results_dict bangla_results);
             (u "combined_results", results_dict all_results)]);
  ret all_results.

(** The [try] block of [analyze_project]. *)
Definition analyze_project_try (project_id : pyval)
    (project_data : gmap str pyval) : M ProjectReport :=
  do all_results <- search_both project_id project_data;
  do content_extractions <-
    extract_content_from_urls all_results (format project_id);
  do saved <-
    save_data project_id (u "content")
      (JArr (map dump_extraction content_extractions));
  do analysis <- analyze_opposition project_data content_extractions;
  do saved <- save_data project_id (u "summary") (dump_analysis analysis);
  ret (Analysed project_id
         (pd_get project_data "project_name" "Unknown")
         analysis
         (length (organic_results all_results))
         (length (filter (fun c => extraction_success c = true)
                    content_extractions))).

Definition analyze_project (project_data : gmap str pyval)
    : M ProjectReport :=
  let project_id := pd_get project_data "project_id" "unknown" in
  try_catch (analyze_project_try project_id project_data)
    (fun e =>
       ret (Failed project_id
              (pd_get project_data "project_name" "Unknown")
              (str_of_exn e))).

End Pipeline.

(** ** Reference instances of the library functions

    The properties below hold for every environment.  The closed
    examples run the pipeline in environments built from the instances
    of this section. *)

Module Lib.

(** [str.lower] on ASCII letters; other code points are kept. *)
Definition lower (s : str) : str :=
  map (fun c => if (65 <=? c) && (c <=? 90) then c + 32 else c) s.

Definition hex_digit (d : N) : N := if d <? 10 then 48 + d else 55 + d.

Definition utf8 (c : N) : list N :=
  if c <? 128 then [c]
  else if c <? 2048 then [192 + c / 64; 128 + c mod 64]
  else if c <? 65536 then
    [224 + c / 4096; 128 + (c / 64) mod 64; 128 + c mod 64]
  else [240 + c / 262144; 128 + (c / 4096) mod 64;
        128 + (c / 64) mod 64; 128 + c mod 64].

Definition unreserved (c : N) : bool :=
  ((48 <=? c) && (c <=? 57)) || ((65 <=? c) && (c <=? 90)) ||
  ((97 <=? c) && (c <=? 122)) ||
  (c =? 95) || (c =? 46) || (c =? 45) || (c =? 126).

(** [urllib.parse.quote_plus] *)
Definition quote_plus (s : str) : str :=
  flat_map
    (fun c =>
       if c =? 32 then [43]
       else if unreserved c then [c]
       else flat_map (fun b => [37; hex_digit (b / 16); hex_digit (b mod 16)])
              (utf8 c))
    s.

(** A decoder for the JSON texts of the examples: objects, arrays,
    strings with the one-letter escapes, [true], [false], [null],
    integers and plain decimals.  Any other text is rejected. *)

Fixpoint skip_ws (s : str) : str :=
  match s with
  | c :: s' =>
      if (c =? 32) || (c =? 9) || (c =? 10) || (c =? 13)
      then skip_ws s' else s
  | [] => []
  end.

Definition unescape (c : N) : option N :=
  if c =? 34 then Some 34 else if c =? 92 then Some 92
  else if c =? 47 then Some 47 else if c =? 98 then Some 8
  else if c =? 102 then Some 12 else if c =? 110 then Some 10
  else if c =? 114 then Some 13 else if c =? 116 then Some 9
  else None.

(** The characters of a string literal, after its opening quote. *)
Fixpoint parse_chars (s acc : str) : option (str * str) :=
  match s with
  | [] => None
  | c :: s' =>
      if c =? 34 then Some (reverse acc, s')
      else if c =? 92 then
        match s' with
        | e :: s'' =>
            match unescape e with
            | Some x => parse_chars s'' (x :: acc)
            | None => None
            end
        | [] => None
        end
      else if c <? 32 then None
      else parse_chars s' (c :: acc)
  end.

Fixpoint digits (s : str) (acc : N) (n : nat) : N * nat * str :=
  match s with
  | c :: s' =>
      if (48 <=? c) && (c <=? 57) then digits s' (10 * acc + (c - 48)) (S n)
      else (acc, n, s)
  | [] => (acc, n, s)
  end.

Definition float_of_N (n : N) : float :=
  PrimFloat.of_uint63 (Uint63.of_Z (Z.of_N n)).

(** A number without exponent, of at most fifteen digits. *)
Definition parse_number (s : str) : option (json * str) :=
  let '(negative, s1) :=
    match s with
    | 45 :: s' => (true, s')
    | _ => (false, s)
    end in
  let '(int_part, n_int, s2) := digits s1 0 0%nat in
  if (n_int =? 0)%nat || (15 <? n_int)%nat then None
  else if (1 <? n_int)%nat && Py.startswith [48] s1 then None
  else
    match s2 with
    | 46 :: s3 =>
        let '(frac_part, n_frac, s4) := digits s3 0 0%nat in
        if (n_frac =? 0)%nat || (15 <? n_int + n_frac)%nat then None
        else if Py.startswith [101] s4 || Py.startswith [69] s4 then None
        else
          let scale := 10 ^ N.of_nat n_frac in
          let f := (float_of_N (int_part * scale + frac_part)
                    / float_of_N scale)%float in
          Some (JFloat (if negative then (- f)%float else f), s4)
    | 101 :: _ => None
    | 69 :: _ => None
    | _ =>
        Some (JInt (if negative then (- Z.of_N int_part)%Z
                    else Z.of_N int_part), s2)
    end.

Fixpoint parse_value (fuel : nat) (s : str) : option (json * str) :=
  match fuel with
  | O => None
  | S fuel' =>
      match skip_ws s with
      | 34 :: s' =>
          match parse_chars s' [] with
          | Some (t, rest) => Some (JStr t, rest)
          | None => None
          end
      | 123 :: s' =>
          match skip_ws s' with
          | 125 :: rest => Some (JObj [], rest)
          | _ => parse_members fuel' s' []
          end
      | 91 :: s' =>
          match skip_ws s' with
          | 93 :: rest => Some (JArr [], rest)
          | _ => parse_items fuel' s' []
          end
      | s0 =>
          if Py.startswith (u "true") s0 then Some (JBool true, drop 4 s0)
          else if Py.startswith (u "false") s0
          then Some (JBool false, drop 5 s0)
          else if Py.startswith (u "null") s0 then Some (JNull, drop 4 s0)
          else parse_number s0
      end
  end
with parse_members (fuel : nat) (s : str) (acc : list (str * json))
    : option (json * str) :=
  match fuel with
  | O => None
  | S fuel' =>
      match skip_ws s with
      | 34 :: s' =>
          match parse_chars s' [] with
          | Some (key, rest) =>
              match skip_ws rest with
              | 58 :: rest' =>
                  match parse_value fuel' rest' with
                  | Some (v, rest'') =>
                      match skip_ws rest'' with
                      | 44 :: more =>
                          parse_members fuel' more (acc ++ [(key, v)])
                      | 125 :: after => Some (JObj (acc ++ [(key, v)]), after)
                      | _ => None
                      end
                  | None => None
                  end
              | _ => None
              end
          | None => None
          end
      | _ => None
      end
  end
with parse_items (fuel : nat) (s : str) (acc : list json)
    : option (json * str) :=
  match fuel with
  | O => None
  | S fuel' =>
      match parse_value fuel' s with
      | Some (v, rest) =>
          match skip_ws rest with
          | 44 :: more => parse_items fuel' more (acc ++ [v])
          | 93 :: after => Some (JArr (acc ++ [v]), after)
          | _ => None
          end
      | None => None
      end
  end.

(** [json.loads] on the fragment above. *)
Definition json_loads (s : str) : result json :=
  match parse_value (S (length s)) s with
  | Some (v, rest) =>
      match skip_ws rest with
      | [] => Ok v
      | _ => Raise (JSONDecodeError (u "Extra data"))
      end
  | None => Raise (JSONDecodeError (u "Expecting value"))
  end.

Definition as_str (j : option json) : option str :=
  match j with
  | Some (JStr t) => Some t
  | _ => None
  end.

Definition as_str_list (j : option json) : option (list str) :=
  match j with
  | Some (JArr items) =>
      foldr (fun item acc =>
               match item, acc with
               | JStr t, Some l => Some (t :: l)
               | _, _ => None
               end) (Some []) items
  | _ => None
  end.

(** The model constructors on fields of exactly the declared types;
    values that pydantic would convert are rejected here. *)
Definition validate_queries (data : json) : result SearchQueries :=
  match data with
  | JObj fields =>
      match as_str (dict_get (u "english_query") fields),
            as_str (dict_get (u "bangla_query") fields) with
      | Some e, Some b => Ok {| english_query := e; bangla_query := b |}
      | _, _ => Raise (Exception (u "validation error for SearchQueries"))
      end
  | _ => Raise (Exception (u "argument after ** must be a mapping"))
  end.

Definition validate_analysis (data : json) : result OppositionAnalysis :=
  match data with
  | JObj fields =>
      match dict_get (u "has_opposition_evidence") fields,
            as_str_list (dict_get (u "opposition_types") fields),
            as_str (dict_get (u "summary") fields),
            dict_get (u "confidence_score") fields,
            as_str_list (dict_get (u "sources") fields) with
      | Some (JBool b), Some types, Some text, Some (JFloat c), Some srcs =>
          Ok {| has_opposition_evidence := b; opposition_types := types;
                summary := text; confidence_score := c; sources := srcs |}
      | _, _, _, _, _ =>
          Raise (Exception (u "validation error for OppositionAnalysis"))
      end
  | _ => Raise (Exception (u "argument after ** must be a mapping"))
  end.

End Lib.

(** ** Environments of the examples *)

Module Demo.

Definition refused : exn := Exception (u "connection refused").

(** Every service is down; files can be written. *)
Definition offline : Env :=
  {| generate_content := fun _ _ => Raise refused;
     requests_post := fun _ _ => Raise refused;
     requests_get := fun _ _ => Raise refused;
     partition := fun _ _ => Raise refused;
     open_write := fun _ _ => Ok tt;
     quote_plus := Lib.quote_plus;
     json_loads := Lib.json_loads;
     select_results := fun _ => Ok [];
     group_broken_paragraphs := fun s => Ok s;
     lower := Lib.lower;
     validate_queries := Lib.validate_queries;
     validate_analysis := Lib.validate_analysis |}.

Definition with_model (reply : World -> str -> result (option str))
    (e : Env) : Env :=
  {| generate_content := reply;
     requests_post := requests_post e;
     requests_get := requests_get e;
     partition := partition e;
     open_write := open_write e;
     quote_plus := quote_plus e;
     json_loads := json_loads e;
     select_results := select_results e;
     group_broken_paragraphs := group_broken_paragraphs e;
     lower := lower e;
     validate_queries := validate_queries e;
     validate_analysis := validate_analysis e |}.

Definition with_search (post : World -> str -> result Response)
    (blocks : str -> result (list element)) (e : Env) : Env :=
  {| generate_content := generate_content e;
     requests_post := post;
     requests_get := requests_get e;
     partition := partition e;
     open_write := open_write e;
     quote_plus := quote_plus e;
     json_loads := json_loads e;
     select_results := blocks;
     group_broken_paragraphs := group_broken_paragraphs e;
     lower := lower e;
     validate_queries := validate_queries e;
     validate_analysis := validate_analysis e |}.

Definition with_fetch (get : World -> str -> result (nat * str))
    (part : World -> str -> result (list str)) (e : Env) : Env :=
  {| generate_content := generate_content e;
     requests_post := requests_post e;
     requests_get := get;
     partition := part;
     open_write := open_write e;
     quote_plus := quote_plus e;
     json_loads := json_loads e;
     select_results := select_results e;
     group_broken_paragraphs := group_broken_paragraphs e;
     lower := lower e;
     validate_queries := validate_queries e;
     validate_analysis := validate_analysis e |}.

Definition with_disk (write : World -> str -> result unit) (e : Env) : Env :=
  {| generate_content := generate_content e;
     requests_post := requests_post e;
     requests_get := requests_get e;
     partition := partition e;
     open_write := write;
     quote_plus := quote_plus e;
     json_loads := json_loads e;
     select_results := select_results e;
     group_broken_paragraphs := group_broken_paragraphs e;
     lower := lower e;
     validate_queries := validate_queries e;
     validate_analysis := validate_analysis e |}.

Definition start : World := {| files := ∅; history := [] |}.

(** The project of the entry point of the source. *)
Definition project_351 : gmap str pyval :=
  list_to_map
    [(u "project_id", PStr (u "351"));
     (u "project_name",
      PStr (u "100 MW Solar Park by Dynamic Sun Energy Private Limited"));
     (u "location", PStr (u "Pabna Sadar Upazila, Pabna"));
     (u "capacity", PStr (u "140 kWp"));
     (u "agency", PStr (u "BPDB"));
     (u "present_status", PStr (u "Completed & Running"))].

(** A response of the search proxy with the given status whose JSON
    envelope is decoded from [text]. *)
Definition response_of (status : nat) (text : str) : Response :=
  {| status_code := status; text := text;
     json_body := Lib.json_loads text |}.

(** A page of two result blocks, the first one empty, and the envelope
    that carries it in its [body]. *)
Definition page_html : str :=
  u "<div class='tF2Cxc'></div><div class='tF2Cxc'><a href='https://example.org/solar-protest'><h3>Farmers protest solar park</h3></a><span>Farmers protested land acquisition for the solar project in 2021.</span></div>".

Definition page_envelope : str :=
  u "{" ++ quoted "body" ++ u ": " ++ dq ++ page_html ++ dq ++ u "}".

(** A block without anchor and without text: it has neither title nor
    link. *)
Definition bare_block : element :=
  {| main_link := None; spans := []; all_text := [] |}.

Definition article_block : element :=
  {| main_link :=
       Some {| href := u "https://example.org/solar-protest";
               h3_text := Some (u "Farmers protest solar park");
               a_text := u "Farmers protest solar park" |};
     spans := [u "Farmers protested land acquisition for the solar project in 2021."];
     all_text := u "Farmers protest solar parkFarmers protested land acquisition for the solar project in 2021." |}.

(** The blocks [div.tF2Cxc] of [page_html]; other pages have none. *)
Definition blocks_of (body : str) : result (list element) :=
  if Py.str_eqb body page_html then Ok [bare_block; article_block]
  else Ok [].

Definition article : SearchResult :=
  {| title := u "Farmers protest solar park";
     link := u "https://example.org/solar-protest";
     description :=
       u "Farmers protested land acquisition for the solar project in 2021.";
     position := 1 |}.

Definition unreachable : SearchResult :=
  {| title := u "Gone"; link := u "https://example.org/gone";
     description := []; position := 2 |}.

(** The reader service answers for the article only; the local
    extractor is down. *)
Definition reader_for_article : Env :=
  with_fetch
    (fun _ target =>
       if Py.str_eqb target (u "https://r.jina.ai/https://example.org/solar-protest")
       then Ok (200%nat, u "Farmers protested land acquisition for the solar project in 2021.")
       else Raise refused)
    (fun _ _ => Raise refused)
    offline.

Definition results_of (l : list SearchResult) : SearchResults :=
  {| organic_results := l; total_results := length l;
     search_query := u "q"; language := u "en" |}.


(** The search proxy returns a page of two blocks, the first of which
    has neither title nor link. *)
Definition page_with_bare_block : Env :=
  with_search (fun _ _ => Ok (response_of 200 page_envelope))
    blocks_of offline.

(** The model answers every prompt with the given text. *)
Definition model_says (reply : str) : Env :=
  with_model (fun _ _ => Ok (Some reply)) offline.

(** A reply whose two queries are empty strings. *)
Definition empty_queries_reply : str :=
  u "{" ++ quoted "english_query" ++ u ": " ++ quoted "" ++ u ", "
    ++ quoted "bangla_query" ++ u ": " ++ quoted "" ++ u "}".

Definition solar_queries_json : str :=
  u "{" ++ quoted "english_query" ++ u ": " ++ quoted "solar park protest"
    ++ u ", " ++ quoted "bangla_query" ++ u ": " ++ quoted "solar park bn"
    ++ u "}".

Definition solar_queries : SearchQueries :=
  {| english_query := u "solar park protest";
     bangla_query := u "solar park bn" |}.

(** The object in a closed fence, and in a fence that is never closed
    (a reply cut after the object). *)
Definition fenced_reply : str :=
  u "Here are the queries:" ++ nl ++ fence_open ++ nl
    ++ solar_queries_json ++ nl ++ fence.

Definition unclosed_fence_reply : str :=
  fence_open ++ nl ++ solar_queries_json.

(** Prose around the object, without fence. *)
Definition prose_reply : str :=
  u "Sure: " ++ solar_queries_json ++ u " Hope this helps.".

(** No file can be written. *)
Definition disk_full : Env :=
  with_disk (fun _ _ => Raise (Exception (u "No space left on device")))
    offline.

Definition fetched_article : ContentExtraction :=
  {| url := u "https://example.org/solar-protest";
     ce_title := u "Farmers protest solar park";
     content :=
       u "Farmers protested land acquisition for the solar project in 2021.";
     extraction_success := true; error_message := None |}.

Definition fetched_nothing : ContentExtraction :=
  {| url := u "https://example.org/empty"; ce_title := u "Empty";
     content := []; extraction_success := true; error_message := None |}.

(** A verdict of the model, as JSON text. *)
Definition verdict_json : str :=
  u "{" ++ quoted "has_opposition_evidence" ++ u ": true, "
    ++ quoted "opposition_types" ++ u ": ["
    ++ quoted "land acquisition protests" ++ u "], "
    ++ quoted "summary" ++ u ": " ++ quoted "Farmers protested in 2021."
    ++ u ", " ++ quoted "confidence_score" ++ u ": 0.5, "
    ++ quoted "sources" ++ u ": ["
    ++ quoted "https://example.org/solar-protest" ++ u "]}".

Definition verdict : OppositionAnalysis :=
  {| has_opposition_evidence := true;
     opposition_types := [u "land acquisition protests"];
     summary := u "Farmers protested in 2021.";
     confidence_score := 0.5%float;
     sources := [u "https://example.org/solar-protest"] |}.

End Demo.

(** ** Vocabulary of the properties *)

(** The artifact of a result: same URL and title, and either a success
    or a failure with empty content and an error message. *)
Definition artifact_of (r : SearchResult) (a : ContentExtraction) : Prop :=
  url a = link r ∧ ce_title a = title r ∧
  (extraction_success a = true ∧ error_message a = None
   ∨ extraction_success a = false ∧ content a = []
     ∧ ∃ e, error_message a = Some (str_of_exn e)).

(** The set built from the result blocks of a page. *)
Definition results_from (env : Env) (blocks : list element) (query language : str)
    : SearchResults :=
  {| organic_results := parse_elements env 0 (take 10 blocks);
     total_results := length (parse_elements env 0 (take 10 blocks));
     search_query := query; language := language |}.


(** The failures of query synthesis: the model call raises, the reply
    has no text, or the text selected from the reply cannot be built,
    parsed or validated. *)
Inductive synthesis_failure (env : Env) (project_data : gmap str pyval)
    (w : World) : Prop :=
| synthesis_model_raises e :
    generate_content env w (queries_prompt project_data) = Raise e →
    synthesis_failure env project_data w
| synthesis_reply_without_text :
    generate_content env w (queries_prompt project_data) = Ok None →
    synthesis_failure env project_data w
| synthesis_no_json_text reply e :
    generate_content env w (queries_prompt project_data) = Ok (Some reply) →
    extract_json_text (Py.strip reply) (manual_queries_json project_data)
      = Raise e →
    synthesis_failure env project_data w
| synthesis_parse_raises reply json_text e :
    generate_content env w (queries_prompt project_data) = Ok (Some reply) →
    extract_json_text (Py.strip reply) (manual_queries_json project_data)
      = Ok json_text →
    json_loads env json_text = Raise e →
    synthesis_failure env project_data w
| synthesis_validation_raises reply json_text data e :
    generate_content env w (queries_prompt project_data) = Ok (Some reply) →
    extract_json_text (Py.strip reply) (manual_queries_json project_data)
      = Ok json_text →
    json_loads env json_text = Ok data →
    validate_queries env data = Raise e →
    synthesis_failure env project_data w.

(** The text the analyzer gathers from the artifacts. *)
Definition gathered_content (content_extractions : list ContentExtraction)
    : str :=
  fst (combine_content content_extractions [] []).

(** An exception [e] during the model call or the parsing of the
    verdict, for a prompt. *)
Inductive analysis_failure (env : Env) (prompt : str) (w : World)
    : exn → Prop :=
| analysis_model_raises e :
    generate_content env w prompt = Raise e →
    analysis_failure env prompt w e
| analysis_reply_without_text :
    generate_content env w prompt = Ok None →
    analysis_failure env prompt w
      (Exception (u "'NoneType' object has no attribute 'strip'"))
| analysis_parse_raises reply json_text e :
    generate_content env w prompt = Ok (Some reply) →
    extract_json_text (Py.strip reply) (Ok default_analysis_json)
      = Ok json_text →
    json_loads env json_text = Raise e →
    analysis_failure env prompt w e
| analysis_validation_raises reply json_text data e :
    generate_content env w prompt = Ok (Some reply) →
    extract_json_text (Py.strip reply) (Ok default_analysis_json)
      = Ok json_text →
    json_loads env json_text = Ok data →
    validate_analysis env data = Raise e →
    analysis_failure env prompt w e.

(** An artifact the analyzer leaves out. *)
Definition failed_or_empty (a : ContentExtraction) : Prop :=
  extraction_success a = false ∨ content a = [].

(** The text handed to the JSON decoder as the specification words it:
    the text between the markers of a fenced block when the reply has
    one (an opening marker and a closing marker after it); otherwise the
    text from the first opening brace through the last closing brace
    when the reply has both; otherwise the default. *)
Definition spec_json_text (response_text : str) (fallback : result str)
    : result str :=
  let json_start := (Py.find fence_open response_text 0 + 7)%Z in
  let json_end := Py.find fence response_text (Z.to_nat json_start) in
  if Py.contains fence_open response_text && (0 <=? json_end)%Z then
    Ok (Py.strip (Py.slice response_text json_start json_end))
  else if Py.contains (u "{") response_text
          && Py.contains (u "}") response_text then
    Ok (Py.slice response_text (Py.find (u "{") response_text 0)
          (Py.rfind (u "}") response_text + 1)%Z)
  else fallback.


(** *** Start-up and entry point *)

(** The analyzer object: the two credentials it reads. *)
Record Analyzer := {
  gemini_api_key : str;
  brightdata_api_key : str
}.

(** [not value] for what [os.getenv] returns: unset, or set to the
    empty string. *)
Definition unset (value : option str) : bool :=
  match value with
  | Some (_ :: _) => false
  | _ => true
  end.

(** The directories [__init__] creates, in the order of the source. *)
Definition output_dirs : list str :=
  [u "search"; u "content"; u "result"; u "summary"].

(** The loop over [dir_path.mkdir(exist_ok=True)], with the directories
    made so far; [mkdir] is the file system's answer. *)
Fixpoint make_dirs (mkdir : list str -> str -> result unit)
    (dirs made : list str) : result unit * list str :=
  match dirs with
  | [] => (Ok tt, made)
  | dir_path :: rest =>
      match mkdir made dir_path with
      | Ok _ => make_dirs mkdir rest (made ++ [dir_path])
      | Raise e => (Raise e, made)
      end
  end.

(** [OppositionAnalyzer.__init__]: the analyzer, or the exception, and
    the directories made. *)
Definition init (getenv : str -> option str)
    (mkdir : list str -> str -> result unit)
    : result Analyzer * list str :=
  let gemini := getenv (u "GEMINI_API_KEY") in
  let brightdata := getenv (u "BRIGHTDATA_SERP_API_KEY") in
  if unset gemini then
    (Raise (Exception
              (u "GEMINI_API_KEY not found in environment variables")), [])
  else if unset brightdata then
    (Raise (Exception
              (u "BRIGHTDATA_SERP_API_KEY not found in environment variables")),
     [])
  else
    match make_dirs mkdir output_dirs [] with
    | (Ok _, made) =>
        (Ok {| gemini_api_key := default [] gemini;
               brightdata_api_key := default [] brightdata |}, made)
    | (Raise e, made) => (Raise e, made)
    end.

(** The project [main] analyzes. *)
Definition test_project : gmap str pyval :=
  list_to_map
    [(u "project_id", PStr (u "351"));
     (u "project_name",
      PStr (u "100 MW Solar Park by Dynamic Sun Energy Private Limited"));
     (u "location", PStr (u "Pabna Sadar Upazila, Pabna"));
     (u "capacity", PStr (u "140 kWp"));
     (u "agency", PStr (u "BPDB"));
     (u "present_status", PStr (u "Completed & Running"))].

(** [json.dumps] of a value of the report: a string is encoded as it is;
    [dumps_other] is what the encoder does with any other object. *)
Definition dumps_value (dumps_other : str -> result json) (v : pyval)
    : result json :=
  match v with
  | PStr s => Ok (JStr s)
  | PObj shown => dumps_other shown
  end.

(** [json.dumps(result, indent=2, ensure_ascii=False)] for a report, as
    the document it encodes.  The keys are encoded in order; the
    [analysis] of a normal report is an [OppositionAnalysis] object,
    which the encoder does not know. *)
Definition dumps_report (dumps_other : str -> result json)
    (report : ProjectReport) : result json :=
  match report with
  | Analysed project_id project_name analysis found extracted =>
      match dumps_value dumps_other project_id with
      | Raise e => Raise e
      | Ok _ =>
          match dumps_value dumps_other project_name with
          | Raise e => Raise e
          | Ok _ =>
              Raise (Exception
                       (u "Object of type OppositionAnalysis is not JSON serializable"))
          end
      end
  | Failed project_id project_name error =>
      match dumps_value dumps_other project_id with
      | Raise e => Raise e
      | Ok id_doc =>
          match dumps_value dumps_other project_name with
          | Raise e => Raise e
          | Ok name_doc =>
              Ok (JObj [(u "project_id", id_doc);
                        (u "project_name", name_doc);
                        (u "error", JStr error)])
          end
      end
  end.

(** What [print] writes: a line of text, or an encoded document. *)
Inductive printed :=
| Line (s : str)
| Doc (j : json).

(** [main]: how it ends, what it has printed, and the world it leaves. *)
Definition main (getenv : str -> option str)
    (mkdir : list str -> str -> result unit) (env : Env)
    (dumps_other : str -> result json) (w : World)
    : result unit * list printed * World :=
  match init getenv mkdir with
  | (Raise e, _) => (Raise e, [], w)
  | (Ok analyzer, _) =>
      match analyze_project env test_project w with
      | (Raise e, w') => (Raise e, [], w')
      | (Ok report, w') =>
          match dumps_report dumps_other report with
          | Ok doc =>
              (Ok tt, [Line (nl ++ u "Analysis Result:"); Doc doc], w')
          | Raise e => (Raise e, [Line (nl ++ u "Analysis Result:")], w')
          end
      end
  end.

(** ** The project table scraper (scraper.py)

    The pure part of [RenewableEnergyScraper]: what it makes of the rows
    of a table once the browser and the HTML parser have delivered
    them.  A row is given by the texts of its cells and the [href]
    attributes of its links, in document order. *)

Module Scraper.

(** [s.split(sep)] for a non-empty [sep]: [cur] holds, reversed, the
    piece being read and [skip] counts the characters of a separator
    still to be passed over. *)
Fixpoint split_go (sep s cur : str) (skip : nat) : list str :=
  match s with
  | [] => [reverse cur]
  | c :: s' =>
      match skip with
      | S k => split_go sep s' cur k
      | O =>
          if Py.startswith sep s
          then reverse cur :: split_go sep s' [] (length sep - 1)
          else split_go sep s' (c :: cur) 0
      end
  end.

Definition split (sep s : str) : list str := split_go sep s [] 0.

(** [s.split(sep, 1)] *)
Definition split_once (sep s : str) : list str :=
  match Py.find_from sep s 0 with
  | Some i => [take i s; drop (i + length sep) s]
  | None => [s]
  end.

(** A character the pattern [[^a-zA-Z0-9_]] does not match. *)
Definition is_word (c : N) : bool :=
  ((97 <=? c) && (c <=? 122)) || ((65 <=? c) && (c <=? 90)) ||
  ((48 <=? c) && (c <=? 57)) || (c =? 95).

(** [re.sub(r'[^a-zA-Z0-9_]', '_', key)] *)
Definition clean_key (key : str) : str :=
  map (fun c => if is_word c then c else 95) key.

Record row := {
  cells : list str;
  hrefs : list (option str)
}.

Record project := {
  project_id : str;
  details_link : str;
  page_url : str;
  sl_number : str;
  project_name : str;
  sid : str;
  capacity : str;
  location : str;
  re_technology : str;
  agency : str;
  finance_lmfd : str;
  completion_date : str;
  present_status : str;
  raw_data : list str;
  details : option (list (str * str))
}.

(** [href.split('kid=')[1].split('&')[0]]; [None] is the [IndexError]
    that the bare [except] turns into [continue]. *)
Definition kid_of (href : str) : option str :=
  match split (u "kid=") href with
  | _ :: after :: _ =>
      match split (u "&") after with
      | first :: _ => Some first
      | [] => None
      end
  | _ => None
  end.

(** The loop over the links of a row: the id and the link of the first
    link whose [href] holds [kid=]. *)
Fixpoint find_project_id (links : list (option str)) : option (str * str) :=
  match links with
  | [] => None
  | href :: rest =>
      match href with
      | Some h =>
          if Py.truthy h && Py.contains (u "kid=") h then
            match kid_of h with
            | Some id => Some (id, h)
            | None => find_project_id rest
            end
          else find_project_id rest
      | None => find_project_id rest
      end
  end.

(** [row_data[i] if len(row_data) > i else ''] *)
Definition cell (row_data : list str) (i : nat) : str :=
  default [] (row_data !! i).

(** What the loop body of [scrape_table_data] appends for a row. *)
Definition project_of_row (url : str) (r : row) : option project :=
  if (10 <=? length (cells r))%nat then
    let row_data := cells r in
    match find_project_id (hrefs r) with
    | Some (id, link) =>
        if Py.truthy id && (10 <=? length row_data)%nat then
          Some {| project_id := id; details_link := link; page_url := url;
                  sl_number := cell row_data 0;
                  project_name := cell row_data 1;
                  sid := cell row_data 2;
                  capacity := cell row_data 3;
                  location := cell row_data 4;
                  re_technology := cell row_data 5;
                  agency := cell row_data 6;
                  finance_lmfd := cell row_data 7;
                  completion_date := cell row_data 8;
                  present_status := cell row_data 9;
                  raw_data := row_data;
                  details := None |}
        else None
    | None => None
    end
  else None.




(** [d[key] = value] on a dictionary kept as its items in order. *)
Fixpoint dict_set (key value : str) (d : list (str * str))
    : list (str * str) :=
  match d with
  | [] => [(key, value)]
  | (k, v) :: rest =>
      if Py.str_eqb k key then (k, value) :: rest
      else (k, v) :: dict_set key value rest
  end.

(** What one row of a detail page adds to [details]. *)
Definition detail_of_row (cell_texts : list str) (details : list (str * str))
    : list (str * str) :=
  let details :=
    if (3 <=? length cell_texts)%nat then
      let key_cell := cell cell_texts 0 in
      if Py.str_eqb (cell cell_texts 1) (u ":") then
        let value_cell := cell cell_texts 2 in
        if Py.truthy key_cell && Py.truthy value_cell
           && negb (Py.str_eqb key_cell (u "Item Name"))
        then dict_set (clean_key key_cell) value_cell details
        else details
      else details
    else details in
  if (length cell_texts =? 1)%nat then
    let text := cell cell_texts 0 in
    if Py.contains (u ":") text
       && (length (split (u ":") text) =? 2)%nat then
      match split_once (u ":") text with
      | [key; value] =>
          let key := Py.strip key in
          let value := Py.strip value in
          if Py.truthy key && Py.truthy value
             && negb (Py.str_eqb key (u "Item Name"))
          then dict_set (clean_key key) value details
          else details
      | _ => details
      end
    else details
  else details.

(** The dictionary [scrape_project_details] builds from the rows of the
    tables of a detail page. *)
Definition details_of_rows (rows : list (list str)) : list (str * str) :=
  foldl (fun details cell_texts => detail_of_row cell_texts details) [] rows.

(** The thirteen fixed columns of a CSV row. *)
Definition fixed_columns (p : project) : list (str * str) :=
  [(u "project_id", project_id p); (u "sl_number", sl_number p);
   (u "project_name", project_name p); (u "sid", sid p);
   (u "capacity", capacity p); (u "location", location p);
   (u "re_technology", re_technology p); (u "agency", agency p);
   (u "finance_lmfd", finance_lmfd p);
   (u "completion_date", completion_date p);
   (u "present_status", present_status p);
   (u "details_link", details_link p); (u "page_url", page_url p)].

(** The name of the column of a detail. *)
Definition detail_column (key : str) : str := u "detail_" ++ clean_key key.

(** The row [save_to_csv] builds for a project. *)
Definition csv_row (p : project) : list (str * str) :=
  foldl (fun row kv => dict_set (detail_column kv.1) kv.2 row)
    (fixed_columns p) (default [] (details p)).

End Scraper.

(** ** What the dashboard shows for a verdict (streamlit_app.py) *)

Module Dashboard.

(** Truthiness of a decoded JSON value. *)
Definition truthy (j : json) : bool :=
  match j with
  | JNull => false
  | JBool b => b
  | JInt z => negb (z =? 0)%Z
  | JFloat f => negb (PrimFloat.eqb f 0%float)
  | JStr s => Py.truthy s
  | JArr items => match items with [] => false | _ => true end
  | JObj fields => match fields with [] => false | _ => true end
  end.

Inductive status :=
| OppositionEvidence
| NoOpposition
| StatusUnknown.


End Dashboard.

(** ** Further vocabulary *)

(** An artifact whose text reaches the prompt of the analyzer. *)
Definition has_content (a : ContentExtraction) : bool :=
  extraction_success a && Py.truthy (content a).

(** The part of the evidence block that one artifact contributes. *)
Definition section_of (a : ContentExtraction) : str :=
  (nl ++ nl ++ u "--- Content from " ++ url a ++ u " ---" ++ nl)
  ++ (u "Title: " ++ ce_title a ++ nl)
  ++ (u "Content: " ++ content a ++ nl).

Definition is_model (ev : event) : bool :=
  match ev with EvModel _ => true | _ => false end.
Definition is_post (ev : event) : bool :=
  match ev with EvPost _ => true | _ => false end.
Definition is_get (ev : event) : bool :=
  match ev with EvGet _ => true | _ => false end.
Definition is_partition (ev : event) : bool :=
  match ev with EvPartition _ => true | _ => false end.
Definition is_write (ev : event) : bool :=
  match ev with EvWrite _ => true | _ => false end.
Definition is_sleep (ev : event) : bool :=
  match ev with EvSleep _ => true | _ => false end.

(** How many events of a kind a history holds. *)
Fixpoint count_events (kind : event → bool) (evs : list event) : nat :=
  match evs with
  | [] => 0
  | ev :: rest => (if kind ev then 1 else 0) + count_events kind rest
  end.

(** The marker appended to a clipped text, and the limit. *)
Definition truncation_marker : str := u "... [Content truncated]".
Definition content_limit : nat := Z.to_nat 15000.

(** The URL asked of the reader service for a result. *)
Definition jina_url (r : SearchResult) : str :=
  u "https://r.jina.ai/" ++ link r.

(** The file [save_data] writes for a project and a directory. *)
Definition save_path (project_id : pyval) (dir : str) : str :=
  dir ++ u "/" ++ format project_id ++ u ".json".

(** The artifact of a success whose cleaned text is [cleaned]. *)
Definition extracted (r : SearchResult) (cleaned : str) : ContentExtraction :=
  {| url := link r; ce_title := title r; content := truncate cleaned;
     extraction_success := true; error_message := None |}.


Module Cases.


(** The model is unreachable, both searches return the page of two
    blocks, and the reader service answers for the article. *)
Definition search_and_reader : Env :=
  Demo.with_search
    (fun _ _ => Ok (Demo.response_of 200 Demo.page_envelope))
    Demo.blocks_of Demo.reader_for_article.

(** A process environment with both credentials. *)
Definition both_keys (name : str) : option str :=
  if Py.str_eqb name (u "GEMINI_API_KEY") then Some (u "g-key")
  else if Py.str_eqb name (u "BRIGHTDATA_SERP_API_KEY") then Some (u "b-key")
  else None.

(** The search credential is set to the empty string. *)
Definition empty_search_key (name : str) : option str :=
  if Py.str_eqb name (u "GEMINI_API_KEY") then Some (u "g-key")
  else if Py.str_eqb name (u "BRIGHTDATA_SERP_API_KEY") then Some []
  else None.

Definition mkdir_ok (made : list str) (dir_path : str) : result unit :=
  Ok tt.

Definition no_other (shown : str) : result json :=
  Raise (Exception (u "Object is not JSON serializable")).

End Cases.

(** The steps [save_data] accepts. *)
Definition valid_steps : list str :=
  [u "search"; u "content"; u "result"; u "summary"].

Module Stored.

(** Queries already stored for project 351. *)
Definition earlier_queries : json :=
  dump_queries {| english_query := u "old"; bangla_query := u "old" |}.

Definition with_earlier_queries : World :=
  {| files := {[ save_path (PStr (u "351")) (u "search")
                 := Document earlier_queries ]};
     history := [] |}.

End Stored.

(** The external calls made between two worlds stay within a budget: at
    most [m] calls of the model, [p] search requests and [g] requests
    to the reader service, one delay per reader request and at most one
    call of the local extractor per reader request. *)
Definition spends (m p g : nat) (w w' : World) : Prop :=
  ∃ evs, history w' = history w ++ evs
    ∧ (count_events is_model evs ≤ m)%nat
    ∧ (count_events is_post evs ≤ p)%nat
    ∧ (count_events is_get evs ≤ g)%nat
    ∧ count_events is_sleep evs = count_events is_get evs
    ∧ (count_events is_partition evs ≤ count_events is_get evs)%nat.


(** A link that is no candidate for the project id. *)
Definition no_kid (href : option str) : Prop :=
  ∀ h, href = Some h → Py.contains (u "kid=") h = false.

(** A well-formed entry of the details of a project. *)
Definition clean_entry (kv : str * str) : Prop :=
  Scraper.clean_key kv.1 = kv.1 ∧ kv.1 ≠ [] ∧ kv.2 ≠ [].

Module Rows.

(** A data row of ten cells whose first link with [kid=] has an empty
    id, followed by a link with an id. *)
Definition empty_id_first : Scraper.row :=
  {| Scraper.cells :=
       [u "1"; u "Solar Park"; u "S-1"; u "100 MW"; u "Pabna"; u "Solar";
        u "BPDB"; u "IDCOL"; u "2021"; u "Running"];
     Scraper.hrefs :=
       [None; Some (u "index.php?id=1"); Some (u "index.php?id=06&kid=&x=1");
        Some (u "index.php?id=06&kid=351")] |}.

End Rows.

(** The names of the thirteen fixed columns. *)
Definition fixed_names : list str :=
  [u "project_id"; u "sl_number"; u "project_name"; u "sid"; u "capacity";
   u "location"; u "re_technology"; u "agency"; u "finance_lmfd";
   u "completion_date"; u "present_status"; u "details_link"; u "page_url"].

Module Details.

(** Rows of a detail page: a heading, three key-value rows (one of them
    the heading of the table, one with a key that needs cleaning) and a
    one-cell row. *)
Definition page_rows : list (list str) :=
  [[u "Item Name"; u ":"; u "Value"];
   [u "System Owner"; u ":"; u "BPDB"];
   [u "Latitude, Longitude"; u ":"; u "24.0, 89.2"];
   [u "Grid Status : On-grid"]].

Definition scraped : Scraper.project :=
  {| Scraper.project_id := u "351"; Scraper.details_link := u "d";
     Scraper.page_url := u "p"; Scraper.sl_number := u "1";
     Scraper.project_name := u "Solar Park"; Scraper.sid := u "S-1";
     Scraper.capacity := u "100 MW"; Scraper.location := u "Pabna";
     Scraper.re_technology := u "Solar"; Scraper.agency := u "BPDB";
     Scraper.finance_lmfd := u "IDCOL"; Scraper.completion_date := u "2021";
     Scraper.present_status := u "Running"; Scraper.raw_data := [];
     Scraper.details := Some (Scraper.details_of_rows page_rows) |}.

End Details.

(** * Properties *)

Ltac unfold_monad :=
  unfold bind, ret, raise, lift, try_catch, try_catch_json, call, sleep,
    write_file, record_event in *.

(** ** Content fetcher *)

Section Fetcher.

Variable env : Env.

Lemma fetch_content_files (r : SearchResult) (w : World) :
  files (snd (fetch_content env r w)) = files w.
Proof.
  unfold fetch_content. unfold_monad.
  destruct (requests_get env w _) as [[status body]|e]; simpl.
  - destruct (status =? 200)%nat; simpl; [done|].
    by destruct (partition env _ _).
  - by destruct (partition env _ _).
Qed.

(** What a normal end of the [try] block of one iteration tells. *)
Lemma extract_one_try_ok (pid : str) (i : nat) (r : SearchResult)
    (w w' : World) (a : ContentExtraction) :
  extract_one_try env pid i r w = (Ok a, w') →
  ∃ raw w1 cleaned,
    fetch_content env r w = (Ok raw, w1)
    ∧ group_broken_paragraphs env raw = Ok cleaned
    ∧ a = {| url := link r; ce_title := title r;
             content := truncate cleaned; extraction_success := true;
             error_message := None |}
    ∧ files w' =
        match open_write env w1 (md_path pid i) with
        | Ok _ => <[md_path pid i := Text raw]> (files w)
        | Raise _ => files w
        end.
Proof.
  unfold extract_one_try. intros H.
  pose proof (fetch_content_files r w) as Hf.
  unfold_monad.
  destruct (fetch_content env r w) as [[raw|e] w1]; [|discriminate H].
  simpl in Hf.
  destruct (group_broken_paragraphs env raw) as [cleaned|e] eqn:Hg;
    [|discriminate H].
  exists raw, w1, cleaned. split; [done|]. split; [done|].
  destruct (open_write env w1 (md_path pid i)); simpl in H;
    inversion H; subst; simpl; rewrite ?Hf; done.
Qed.


Lemma extract_one_total (pid : str) (i : nat) (r : SearchResult)
    (w : World) :
  ∃ a w', extract_one env pid i r w = (Ok a, w') ∧ artifact_of r a
    ∧ ∀ e, fst (extract_one_try env pid i r w) = Raise e →
           a = failed_extraction r e.
Proof.
  unfold extract_one, try_catch.
  destruct (extract_one_try env pid i r w) as [[a|e] w'] eqn:E.
  - exists a, w'. split; [done|].
    apply extract_one_try_ok in E as (raw & w1 & cleaned & _ & _ & -> & _).
    split; [|intros e He; discriminate He].
    repeat split; simpl; auto.
  - exists (failed_extraction r e), w'. split; [done|]. split.
    + repeat split; simpl. right. eauto.
    + intros e' He. simpl in He. by inversion He.
Qed.

Lemma extract_loop_total (pid : str) (results : list SearchResult) :
  ∀ (i : nat) (acc : list ContentExtraction) (w : World),
  ∃ arts, fst (extract_loop env pid i results acc w) = Ok (acc ++ arts)
    ∧ Forall2 artifact_of results arts.
Proof.
  induction results as [|r rest IH]; intros i acc w; simpl.
  - exists []. rewrite app_nil_r. split; [done|constructor].
  - destruct (extract_one_total pid i r w) as (a & w' & E & Ha & _).
    unfold bind at 1. rewrite E.
    unfold bind at 1. unfold sleep at 1.
    destruct (IH (S i) (acc ++ [a]) (record_event (EvSleep 2) w'))
      as (arts & Hrun & Harts).
    exists (a :: arts). rewrite Hrun, <- app_assoc. simpl.
    split; [done|]. by constructor.
Qed.

End Fetcher.


(** Three results, the second of which cannot be fetched by either
    extractor: three artifacts, the second one failed. *)
Example extract_content_middle_failure :
  match fst (extract_content_from_urls Demo.reader_for_article
               (Demo.results_of [Demo.article; Demo.unreachable; Demo.article])
               (u "351") Demo.start) with
  | Ok arts =>
      map extraction_success arts = [true; false; true]
      ∧ map url arts = map link [Demo.article; Demo.unreachable; Demo.article]
      ∧ map error_message arts = [None; Some (u "connection refused"); None]
  | Raise _ => False
  end.
Proof. vm_compute. done. Qed.



(** ** Search client *)

Section Search.

Variable env : Env.

Lemma results_from_nil (query language : str) :
  results_from env [] query language = empty_results query language.
Proof. reflexivity. Qed.

(** Every call returns, and what it returns is built from some list of
    blocks (the empty list on each failure path). *)
Lemma search_total (query language : str) (w : World) :
  ∃ blocks w',
    search_with_brightdata env query language w
    = (Ok (results_from env blocks query language), w').
Proof.
  unfold search_with_brightdata, search_with_brightdata_try,
    parse_search_response.
  unfold_monad.
  destruct (requests_post env w (search_url env query)) as [resp|e];
    [|by exists []; eexists].
  destruct (status_code resp =? 200)%nat; [|by exists []; eexists].
  destruct (json_body resp) as [data|[msg|msg]];
    [|by exists []; eexists..].
  destruct (json_keys data) as [keys|[msg|msg]];
    [|by exists []; eexists..].
  destruct (json_field "body" data) as [[| | | |body| |]|];
    try by exists []; eexists.
  destruct (select_results env body) as [blocks|[msg|msg]];
    [|by exists []; eexists..].
  by exists blocks; eexists.
Qed.

Lemma parse_elements_length (blocks : list element) :
  ∀ i, (length (parse_elements env i blocks) ≤ length blocks)%nat.
Proof.
  induction blocks as [|el rest IH]; intros i; simpl; [lia|].
  destruct (element_title_link el) as [t l].
  rewrite length_app. specialize (IH (S i)).
  destruct (Py.truthy t || Py.truthy l); simpl; lia.
Qed.






End Search.

Lemma bind_ok_inv {A B} (m : M A) (k : A → M B) (w w' : World) (b : B) :
  bind m k w = (Ok b, w') →
  ∃ a w1, m w = (Ok a, w1) ∧ k a w1 = (Ok b, w').
Proof.
  unfold bind. destruct (m w) as [[a|e] w1]; intros H; [eauto|].
  discriminate H.
Qed.

Lemma generate_search_queries_total (env : Env)
    (project_data : gmap str pyval) (w : World) :
  ∃ q w', generate_search_queries env project_data w = (Ok q, w').
Proof.
  unfold generate_search_queries, try_catch.
  destruct (generate_search_queries_try env project_data w) as [[q|e] w'];
    eauto.
Qed.

Lemma search_total_results (env : Env) (query language : str)
    (w w' : World) (r : SearchResults) :
  search_with_brightdata env query language w = (Ok r, w') →
  total_results r = length (organic_results r).
Proof.
  intros H. destruct (search_total env query language w) as (bs & w1 & E).
  rewrite E in H. by inversion H.
Qed.





(** C10: the set [search_with_brightdata] returns has a total equal to
    the number of its results, and so has the combined set that
    [analyze_project] builds from the two searches. *)
Theorem total_results_is_number_of_results (env : Env) :
  (∀ query language w,
     ∃ r, fst (search_with_brightdata env query language w) = Ok r
       ∧ total_results r = length (organic_results r))
  ∧ (∀ project_id project_data w,
       match fst (search_both env project_id project_data w) with
       | Ok all_results =>
           total_results all_results = length (organic_results all_results)
       | Raise _ => True
       end).
Proof.
  split.
  - intros query language w.
    destruct (search_total env query language w) as (bs & w' & E).
    rewrite E. by eexists.
  - intros pid pd w.
    destruct (search_both env pid pd w) as [[all|e] w'] eqn:E; [|done].
    simpl. unfold search_both in E.
    apply bind_ok_inv in E as (q & w1 & _ & E).
    apply bind_ok_inv in E as (? & w2 & _ & E).
    apply bind_ok_inv in E as (en & w3 & Hen & E).
    apply bind_ok_inv in E as (bn & w4 & Hbn & E).
    apply bind_ok_inv in E as (? & w5 & _ & E).
    inversion E; subst. simpl.
    apply search_total_results in Hen, Hbn.
    rewrite length_app. lia.
Qed.

(** Both searches return the page of two blocks: the combined set has
    the two kept results, positions included, and a total of 2. *)
Example combined_results_of_two_pages :
  match fst (search_both Demo.page_with_bare_block (PStr (u "351"))
               Demo.project_351 Demo.start) with
  | Ok all_results =>
      total_results all_results = 2%nat
      ∧ map position (organic_results all_results) = [2; 2]%nat
      ∧ language all_results = u "mixed"
  | Raise _ => False
  end.
Proof. vm_compute. done. Qed.

(** ** Query synthesis *)

Lemma fallback_queries_nonempty (project_data : gmap str pyval) :
  english_query (fallback_queries project_data) ≠ []
  ∧ bangla_query (fallback_queries project_data) ≠ [].
Proof.
  split; intros H; apply (f_equal length) in H; simpl in H;
    rewrite !length_app in H; simpl in H; lia.
Qed.

(** C3, as the code has it: [generate_search_queries] returns a pair for
    every project record.  When the model call raises, the reply has no
    text, or the text selected from the reply cannot be parsed or
    validated, the pair is the deterministic fallback, whose two fields
    are non-empty.  When the selected text parses and validates, the
    pair it holds is returned as it is. *)
Theorem generate_search_queries_falls_back (env : Env)
    (project_data : gmap str pyval) (w : World) :
  (∃ q, fst (generate_search_queries env project_data w) = Ok q)
  ∧ (synthesis_failure env project_data w →
     fst (generate_search_queries env project_data w)
       = Ok (fallback_queries project_data)
     ∧ english_query (fallback_queries project_data) ≠ []
     ∧ bangla_query (fallback_queries project_data) ≠ [])
  ∧ (∀ reply json_text data q,
       generate_content env w (queries_prompt project_data)
         = Ok (Some reply) →
       extract_json_text (Py.strip reply) (manual_queries_json project_data)
         = Ok json_text →
       json_loads env json_text = Ok data →
       validate_queries env data = Ok q →
       fst (generate_search_queries env project_data w) = Ok q).
Proof.
  split; [|split].
  - destruct (generate_search_queries_total env project_data w)
      as (q & w' & E).
    rewrite E. eauto.
  - intros Hfail. split; [|apply fallback_queries_nonempty].
    unfold generate_search_queries, generate_search_queries_try,
      response_text.
    unfold_monad.
    destruct Hfail as [e Hm|Hm|reply e Hm Hx|reply jt e Hm Hx Hl
                      |reply jt data e Hm Hx Hl Hv]; rewrite Hm; simpl;
      rewrite ?Hx; simpl; rewrite ?Hl; simpl; rewrite ?Hv; done.
  - intros reply jt data q Hm Hx Hl Hv.
    unfold generate_search_queries, generate_search_queries_try,
      response_text.
    unfold_monad. rewrite Hm. simpl. rewrite Hx. simpl. rewrite Hl. simpl.
    by rewrite Hv.
Qed.

(** With the model unreachable, the project of the entry point gets the
    fallback pair. *)
Lemma generate_search_queries_falls_back_witness :
  synthesis_failure Demo.offline Demo.project_351 Demo.start
  ∧ fst (generate_search_queries Demo.offline Demo.project_351 Demo.start)
    = Ok (fallback_queries Demo.project_351)
  ∧ english_query (fallback_queries Demo.project_351) ≠ []
  ∧ bangla_query (fallback_queries Demo.project_351) ≠ [].
Proof.
  assert (H : synthesis_failure Demo.offline Demo.project_351 Demo.start).
  { eapply synthesis_model_raises. reflexivity. }
  split; [exact H|].
  exact (proj1 (proj2 (generate_search_queries_falls_back Demo.offline
                         Demo.project_351 Demo.start)) H).
Defined.

(** C3 fails as stated: when the model replies with a JSON object whose
    two queries are empty strings, that pair is returned. *)
Lemma empty_queries_are_returned :
  fst (generate_search_queries (Demo.model_says Demo.empty_queries_reply)
         Demo.project_351 Demo.start)
  = Ok {| english_query := []; bangla_query := [] |}.
Proof. vm_compute. done. Qed.

(** ** The text handed to the JSON decoder *)

(** A closed fence is unwrapped, and prose around an object is cut
    off. *)
Example fenced_reply_unwrapped :
  extract_json_text (Py.strip Demo.fenced_reply)
    (manual_queries_json Demo.project_351)
  = Ok Demo.solar_queries_json
  ∧ fst (generate_search_queries (Demo.model_says Demo.fenced_reply)
           Demo.project_351 Demo.start)
    = Ok Demo.solar_queries.
Proof. vm_compute. done. Qed.

Example prose_reply_scanned :
  extract_json_text (Py.strip Demo.prose_reply)
    (manual_queries_json Demo.project_351)
  = Ok Demo.solar_queries_json
  ∧ fst (generate_search_queries (Demo.model_says Demo.prose_reply)
           Demo.project_351 Demo.start)
    = Ok Demo.solar_queries.
Proof. vm_compute. done. Qed.

Lemma extract_json_text_brace_scan (t : str) (fallback : result str) :
  Py.contains fence_open t = false →
  Py.contains (u "{") t = true → Py.contains (u "}") t = true →
  extract_json_text t fallback
  = Ok (Py.slice t (Py.find (u "{") t 0) (Py.rfind (u "}") t + 1)).
Proof. intros H1 H2 H3. unfold extract_json_text. by rewrite H1, H2, H3. Qed.

Lemma extract_json_text_default (t : str) (fallback : result str) :
  Py.contains fence_open t = false →
  Py.contains (u "{") t && Py.contains (u "}") t = false →
  extract_json_text t fallback = fallback.
Proof. intros H1 H2. unfold extract_json_text. by rewrite H1, H2. Qed.

(** The code selects the text the specification describes for every
    reply but one that opens a fence and never closes it. *)
Lemma extract_json_text_as_specified (t : str) (fallback : result str) :
  (Py.contains fence_open t = true →
   (0 ≤ Py.find fence t (Z.to_nat (Py.find fence_open t 0 + 7)))%Z) →
  extract_json_text t fallback = spec_json_text t fallback.
Proof.
  intros H. unfold extract_json_text, spec_json_text.
  destruct (Py.contains fence_open t); simpl; [|done].
  specialize (H eq_refl). apply Z.leb_le in H. by rewrite H.
Qed.

(** C7 at a reply that opens a fence and never closes it: there is no
    fenced block, the reply has both braces, and the text from the
    first brace through the last one is a valid object, which is what
    the three tiers select.  The code takes the fence branch: the search
    for the closing fence answers -1, the slice ends one character
    early, the object loses its closing brace, the decoder rejects it,
    and the content of the reply is lost in both parsers. *)
Theorem unclosed_fence_drops_last_character :
  let t := Py.strip Demo.unclosed_fence_reply in
  Py.find fence t (Z.to_nat (Py.find fence_open t 0 + 7)) = (-1)%Z
  ∧ spec_json_text t (manual_queries_json Demo.project_351)
    = Ok Demo.solar_queries_json
  ∧ extract_json_text t (manual_queries_json Demo.project_351)
    = Ok (removelast Demo.solar_queries_json)
  ∧ Lib.validate_queries
      match Lib.json_loads Demo.solar_queries_json with
      | Ok data => data
      | Raise _ => JNull
      end = Ok Demo.solar_queries
  ∧ (∃ msg, Lib.json_loads (removelast Demo.solar_queries_json)
            = Raise (JSONDecodeError msg))
  ∧ fst (generate_search_queries (Demo.model_says Demo.unclosed_fence_reply)
           Demo.project_351 Demo.start)
    = Ok (fallback_queries Demo.project_351)
  ∧ (∃ msg, fst (analyze_opposition
                   (Demo.model_says (fence_open ++ nl ++ Demo.verdict_json))
                   Demo.project_351 [Demo.fetched_article] Demo.start)
            = Ok (error_analysis (JSONDecodeError msg))).
Proof.
  vm_compute. repeat split; try done; eexists; reflexivity.
Qed.

(** ** Evidence analyzer *)

Lemma combine_content_skips (content_extractions : list ContentExtraction) :
  Forall failed_or_empty content_extractions →
  ∀ all_content sources_with_content,
    combine_content content_extractions all_content sources_with_content
    = (all_content, sources_with_content).
Proof.
  induction 1 as [|a rest Ha _ IH]; intros acc srcs; simpl; [done|].
  destruct Ha as [Ha|Ha]; rewrite Ha; simpl; [apply IH|].
  rewrite andb_false_r. apply IH.
Qed.

Lemma analyze_opposition_total (env : Env) (project_data : gmap str pyval)
    (content_extractions : list ContentExtraction) (w : World) :
  ∃ v w', analyze_opposition env project_data content_extractions w
          = (Ok v, w').
Proof.
  unfold analyze_opposition.
  destruct (combine_content content_extractions [] []) as [all_content srcs].
  destruct (negb (Py.truthy (Py.strip all_content))); [by do 2 eexists|].
  unfold try_catch.
  destruct (analyze_opposition_try env _ w) as [[v|e] w']; by do 2 eexists.
Qed.

(** When there is text to analyze, the model is called once, with the
    prompt built from that text. *)
Lemma analyze_opposition_calls_model (env : Env)
    (project_data : gmap str pyval)
    (content_extractions : list ContentExtraction) (w : World) :
  Py.truthy (Py.strip (gathered_content content_extractions)) = true →
  history (snd (analyze_opposition env project_data content_extractions w))
  = history w
      ++ [EvModel (analysis_prompt project_data
                     (gathered_content content_extractions))].
Proof.
  unfold analyze_opposition, gathered_content.
  destruct (combine_content content_extractions [] []) as [all_content srcs].
  simpl. intros ->. simpl.
  unfold analyze_opposition_try. unfold_monad.
  destruct (generate_content env w _) as [reply|e]; simpl; [|done].
  destruct (response_text reply); simpl; [|done].
  destruct (extract_json_text _ _); simpl; [|done].
  destruct (json_loads env _); simpl; [|done].
  by destruct (validate_analysis env _).
Qed.

(** C4: [analyze_opposition] returns a verdict for every project record
    and artifact list, and an exception during the model call or the
    parsing of the verdict gives the fallback verdict: no evidence,
    confidence 0.0, no opposition types, no sources, and the message of
    the exception in the summary. *)
Theorem analyze_opposition_never_raises (env : Env)
    (project_data : gmap str pyval)
    (content_extractions : list ContentExtraction) (w : World) :
  (∃ v, fst (analyze_opposition env project_data content_extractions w)
        = Ok v)
  ∧ (∀ e,
       Py.truthy (Py.strip (gathered_content content_extractions)) = true →
       analysis_failure env
         (analysis_prompt project_data
            (gathered_content content_extractions)) w e →
       ∃ v, fst (analyze_opposition env project_data content_extractions w)
            = Ok v
         ∧ has_opposition_evidence v = false
         ∧ confidence_score v = 0%float
         ∧ opposition_types v = []
         ∧ sources v = []
         ∧ summary v = u "Error during analysis: " ++ str_of_exn e).
Proof.
  split.
  - destruct (analyze_opposition_total env project_data content_extractions w)
      as (v & w' & E).
    rewrite E. eauto.
  - intros e Hcontent Hfail. exists (error_analysis e).
    split; [|done].
    unfold analyze_opposition. unfold gathered_content in *.
    destruct (combine_content content_extractions [] [])
      as [all_content srcs].
    simpl in *. rewrite Hcontent. simpl.
    unfold analyze_opposition_try, response_text. unfold_monad.
    destruct Hfail as [e Hm|Hm|reply jt e Hm Hx Hl|reply jt data e Hm Hx Hl Hv];
      rewrite Hm; simpl; rewrite ?Hx; simpl; rewrite ?Hl; simpl;
      rewrite ?Hv; done.
Qed.

(** With one fetched article and the model unreachable, the verdict
    carries the message of the connection error. *)
Lemma analyze_opposition_never_raises_witness :
  Py.truthy (Py.strip (gathered_content [Demo.fetched_article])) = true
  ∧ analysis_failure Demo.offline
      (analysis_prompt Demo.project_351
         (gathered_content [Demo.fetched_article]))
      Demo.start Demo.refused
  ∧ ∃ v, fst (analyze_opposition Demo.offline Demo.project_351
                [Demo.fetched_article] Demo.start) = Ok v
      ∧ has_opposition_evidence v = false
      ∧ confidence_score v = 0%float
      ∧ opposition_types v = []
      ∧ sources v = []
      ∧ summary v = u "Error during analysis: " ++ str_of_exn Demo.refused.
Proof.
  assert (H1 : Py.truthy (Py.strip (gathered_content [Demo.fetched_article]))
               = true) by reflexivity.
  assert (H2 : analysis_failure Demo.offline
                 (analysis_prompt Demo.project_351
                    (gathered_content [Demo.fetched_article]))
                 Demo.start Demo.refused).
  { apply analysis_model_raises. reflexivity. }
  split; [exact H1|]. split; [exact H2|].
  exact (proj2 (analyze_opposition_never_raises Demo.offline
                  Demo.project_351 [Demo.fetched_article] Demo.start)
           Demo.refused H1 H2).
Defined.

(** C5: when every artifact is failed or has empty content (the empty
    list included), [analyze_opposition] returns the verdict without
    evidence, with confidence 0.0 and no opposition types or sources,
    and leaves the world as it was: no call of the model is made. *)
Theorem analyze_opposition_short_circuit (env : Env)
    (project_data : gmap str pyval)
    (content_extractions : list ContentExtraction) (w : World) :
  Forall failed_or_empty content_extractions →
  ∃ v, analyze_opposition env project_data content_extractions w = (Ok v, w)
    ∧ has_opposition_evidence v = false
    ∧ confidence_score v = 0%float
    ∧ opposition_types v = []
    ∧ sources v = []
    ∧ history (snd (analyze_opposition env project_data
                      content_extractions w)) = history w.
Proof.
  intros Hall. exists no_content_analysis.
  unfold analyze_opposition.
  rewrite (combine_content_skips _ Hall). simpl. done.
Qed.

(** A failed artifact and a fetched page without text: the verdict is
    returned although the model would answer with evidence. *)
Lemma analyze_opposition_short_circuit_witness :
  Forall failed_or_empty
    [failed_extraction Demo.unreachable Demo.refused; Demo.fetched_nothing]
  ∧ ∃ v, analyze_opposition (Demo.model_says Demo.verdict_json)
           Demo.project_351
           [failed_extraction Demo.unreachable Demo.refused;
            Demo.fetched_nothing] Demo.start = (Ok v, Demo.start)
      ∧ has_opposition_evidence v = false
      ∧ confidence_score v = 0%float
      ∧ opposition_types v = []
      ∧ sources v = []
      ∧ history (snd (analyze_opposition (Demo.model_says Demo.verdict_json)
                        Demo.project_351
                        [failed_extraction Demo.unreachable Demo.refused;
                         Demo.fetched_nothing] Demo.start))
        = history Demo.start.
Proof.
  assert (H : Forall failed_or_empty
                [failed_extraction Demo.unreachable Demo.refused;
                 Demo.fetched_nothing]).
  { constructor; [left; reflexivity|].
    constructor; [right; reflexivity|]. constructor. }
  split; [exact H|].
  exact (analyze_opposition_short_circuit (Demo.model_says Demo.verdict_json)
           Demo.project_351 _ Demo.start H).
Defined.

(** The same model, given the fetched article, is called and its verdict
    is returned. *)
Example analyze_opposition_with_content :
  analyze_opposition (Demo.model_says Demo.verdict_json) Demo.project_351
    [failed_extraction Demo.unreachable Demo.refused; Demo.fetched_article]
    Demo.start
  = (Ok Demo.verdict,
     record_event
       (EvModel (analysis_prompt Demo.project_351
                   (gathered_content [Demo.fetched_article])))
       Demo.start).
Proof. vm_compute. done. Qed.

(** ** Orchestrator *)

Lemma bind_ok {A B} (m : M A) (k : A → M B) (w w1 : World) (a : A) :
  m w = (Ok a, w1) → bind m k w = k a w1.
Proof. unfold bind. by intros ->. Qed.

Lemma save_data_ok (env : Env) (project_id : pyval) (step dir : str)
    (data : json) (w : World) :
  (∀ w0 path, open_write env w0 path = Ok tt) →
  step_dir step = Ok dir →
  ∃ w', save_data env project_id step data w = (Ok tt, w').
Proof.
  intros Hdisk Hdir. unfold save_data. unfold_monad.
  rewrite Hdir, Hdisk. by eexists.
Qed.

Lemma extract_content_total (env : Env) (search_results : SearchResults)
    (project_id : str) (w : World) :
  ∃ arts w',
    extract_content_from_urls env search_results project_id w = (Ok arts, w').
Proof.
  destruct (extract_loop_total env project_id
              (organic_results search_results) 0 [] w) as (arts & H & _).
  unfold extract_content_from_urls.
  destruct (extract_loop env project_id 0 _ [] w) as [res w'].
  simpl in H. subst res. by exists arts, w'.
Qed.

(** C6: [analyze_project] returns a report for every project record; an
    exception that leaves its [try] block gives the report with the
    project id, the project name and the message of the exception; and
    the stages themselves let no exception out: when files can be
    written, the report is the one of the normal path. *)
Theorem analyze_project_never_raises (env : Env)
    (project_data : gmap str pyval) (w : World) :
  (∃ report, fst (analyze_project env project_data w) = Ok report)
  ∧ (∀ e,
       fst (analyze_project_try env
              (pd_get project_data "project_id" "unknown") project_data w)
         = Raise e →
       fst (analyze_project env project_data w)
         = Ok (Failed (pd_get project_data "project_id" "unknown")
                 (pd_get project_data "project_name" "Unknown")
                 (str_of_exn e)))
  ∧ ((∀ w0 path, open_write env w0 path = Ok tt) →
     ∃ analysis found extracted,
       fst (analyze_project env project_data w)
         = Ok (Analysed (pd_get project_data "project_id" "unknown")
                 (pd_get project_data "project_name" "Unknown")
                 analysis found extracted)).
Proof.
  split; [|split].
  - unfold analyze_project, try_catch.
    destruct (analyze_project_try env _ project_data w) as [[r|e] w'];
      simpl; eauto.
  - intros e He. unfold analyze_project, try_catch.
    destruct (analyze_project_try env _ project_data w) as [[r|e'] w'];
      simpl in *; [discriminate He|].
    by inversion He.
  - intros Hdisk. unfold analyze_project, try_catch.
    set (pid := pd_get project_data "project_id" "unknown").
    unfold analyze_project_try, search_both.
    destruct (generate_search_queries_total env project_data w)
      as (q & w1 & E1).
    destruct (save_data_ok env pid (u "search") (u "search")
                (dump_queries q) w1 Hdisk eq_refl) as (w2 & E2).
    destruct (search_total env (english_query q) (u "en") w2)
      as (b1 & w3 & E3).
    destruct (search_total env (bangla_query q) (u "bn") w3)
      as (b2 & w4 & E4).
    set (all := combined_results
                  (results_from env b1 (english_query q) (u "en"))
                  (results_from env b2 (bangla_query q) (u "bn")) q).
    destruct (save_data_ok env pid (u "result") (u "result")
                (JObj [(u "english_search",
                        results_dict
                          (results_from env b1 (english_query q) (u "en")));
                       (u "bangla_search",
                        results_dict
                          (results_from env b2 (bangla_query q) (u "bn")));
                       (u "combined_results", results_dict all)])
                w4 Hdisk eq_refl) as (w5 & E5).
    destruct (extract_content_total env all (format pid) w5)
      as (arts & w6 & E6).
    destruct (save_data_ok env pid (u "content") (u "content")
                (JArr (map dump_extraction arts)) w6 Hdisk eq_refl)
      as (w7 & E7).
    destruct (analyze_opposition_total env project_data arts w7)
      as (v & w8 & E8).
    destruct (save_data_ok env pid (u "summary") (u "summary")
                (dump_analysis v) w8 Hdisk eq_refl) as (w9 & E9).
    erewrite bind_ok; [|erewrite bind_ok; [|exact E1]].
    2: { erewrite bind_ok; [|exact E2].
         erewrite bind_ok; [|exact E3].
         erewrite bind_ok; [|exact E4].
         erewrite bind_ok; [|exact E5]. reflexivity. }
    erewrite bind_ok; [|exact E6].
    erewrite bind_ok; [|exact E7].
    erewrite bind_ok; [|exact E8].
    erewrite bind_ok; [|exact E9].
    simpl. eauto.
Qed.

(** With a full disk the first save raises, and the report carries the
    message of that error. *)
Lemma analyze_project_never_raises_witness :
  fst (analyze_project_try Demo.disk_full
         (pd_get Demo.project_351 "project_id" "unknown")
         Demo.project_351 Demo.start)
  = Raise (Exception (u "No space left on device"))
  ∧ fst (analyze_project Demo.disk_full Demo.project_351 Demo.start)
    = Ok (Failed (pd_get Demo.project_351 "project_id" "unknown")
            (pd_get Demo.project_351 "project_name" "Unknown")
            (str_of_exn (Exception (u "No space left on device")))).
Proof.
  assert (H : fst (analyze_project_try Demo.disk_full
                     (pd_get Demo.project_351 "project_id" "unknown")
                     Demo.project_351 Demo.start)
              = Raise (Exception (u "No space left on device"))).
  { vm_compute. reflexivity. }
  split; [exact H|].
  exact (proj1 (proj2 (analyze_project_never_raises Demo.disk_full
                         Demo.project_351 Demo.start)) _ H).
Defined.

(** Both searches fail: no URL is found, none is extracted, and the
    verdict is the one without evidence. *)
Example analyze_project_without_results :
  fst (analyze_project Demo.offline Demo.project_351 Demo.start)
  = Ok (Analysed (PStr (u "351"))
          (PStr (u "100 MW Solar Park by Dynamic Sun Energy Private Limited"))
          no_content_analysis 0 0).
Proof. vm_compute. done. Qed.

(** * Further properties of the pipeline *)

(** ** Clipping of the extracted text *)

Lemma slice_prefix (s : str) (n : nat) :
  Py.slice s 0 (Z.of_nat n) = take n s.
Proof.
  unfold Py.slice, Py.clip. simpl.
  replace (Z.of_nat n <? 0)%Z with false by (symmetry; apply Z.ltb_ge; lia).
  rewrite Nat2Z.id, Nat.sub_0_r, drop_0.
  destruct (decide (n ≤ length s)%nat).
  - by rewrite Nat.min_l.
  - rewrite Nat.min_r by lia. rewrite (take_ge s n) by lia.
    by rewrite take_ge.
Qed.

Lemma truncate_unfold (s : str) :
  truncate s =
  if decide (content_limit < length s)%nat
  then take content_limit s ++ truncation_marker
  else s.
Proof.
  unfold truncate, content_limit, truncation_marker.
  destruct (decide _) as [H|H].
  - replace (15000 <? Z.of_nat (length s))%Z with true
      by (symmetry; apply Z.ltb_lt; lia).
    rewrite <- (slice_prefix s (Z.to_nat 15000)).
    by rewrite Z2Nat.id by lia.
  - by replace (15000 <? Z.of_nat (length s))%Z with false
      by (symmetry; apply Z.ltb_ge; lia).
Qed.

Lemma truncation_marker_length : length truncation_marker = 23%nat.
Proof. reflexivity. Qed.

(** X1: the clipped text keeps the first 15000 characters of the
    cleaned text, is the cleaned text itself when that has at most
    15000 characters, and otherwise is those 15000 characters followed
    by the marker, 15023 characters in all. *)
Theorem truncate_keeps_prefix_and_bounds (s : str) :
  take content_limit (truncate s) = take content_limit s
  ∧ (Z.of_nat (length (truncate s)) ≤ 15023)%Z
  ∧ ((Z.of_nat (length s) ≤ 15000)%Z → truncate s = s)
  ∧ ((15000 < Z.of_nat (length s))%Z →
     truncate s = take content_limit s ++ truncation_marker
     ∧ Z.of_nat (length (truncate s)) = 15023%Z).
Proof.
  rewrite truncate_unfold. unfold content_limit.
  destruct (decide _) as [H|H].
  - repeat split.
    + rewrite take_app_le by (rewrite length_take; lia).
      by rewrite take_take, Nat.min_id.
    + rewrite length_app, length_take, truncation_marker_length. lia.
    + intros. lia.
    + rewrite length_app, length_take, truncation_marker_length. lia.
  - repeat split; try done; intros; lia.
Qed.

(** ** One iteration of the extraction loop, with its effects *)

Section Effects.

#[local] Arguments u _ : simpl never.
#[local] Arguments md_path _ _ : simpl never.
#[local] Arguments truncate _ : simpl never.

Lemma count_events_app (kind : event → bool) (l1 l2 : list event) :
  count_events kind (l1 ++ l2)
  = (count_events kind l1 + count_events kind l2)%nat.
Proof. induction l1 as [|ev l1 IH]; simpl; [done|]. rewrite IH. lia. Qed.

Lemma truncate_length (s : str) :
  (Z.of_nat (length (truncate s)) ≤ 15023)%Z.
Proof.
  rewrite truncate_unfold. unfold content_limit.
  destruct (decide _); [|lia].
  rewrite length_app, length_take, truncation_marker_length. lia.
Qed.

(** What one iteration does to the world: it asks the reader service
    once, never sleeps, never calls the model or the search proxy, and
    leaves every file but its own [.md] file as it was. *)
Lemma extract_one_step (env : Env) (pid : str) (i : nat) (r : SearchResult)
    (w : World) :
  ∃ a w' evs,
    extract_one env pid i r w = (Ok a, w')
    ∧ history w' = history w ++ evs
    ∧ count_events is_get evs = 1%nat
    ∧ count_events is_sleep evs = 0%nat
    ∧ count_events is_model evs = 0%nat
    ∧ count_events is_post evs = 0%nat
    ∧ (count_events is_partition evs ≤ 1)%nat
    ∧ (∀ path, path ≠ md_path pid i → files w' !! path = files w !! path)
    ∧ (Z.of_nat (length (content a)) ≤ 15023)%Z.
Proof.
  unfold extract_one, extract_one_try, fetch_content. unfold_monad.
  destruct (requests_get env w _) as [[status body]|e0]; simpl;
    [destruct (status =? 200)%nat; simpl|];
    try (destruct (partition env _ (link r)) as [els|e1]; simpl);
    try (destruct (group_broken_paragraphs env _) as [cleaned|e2]; simpl);
    try (destruct (open_write env _ (md_path pid i)); simpl);
    (do 2 eexists; eexists;
     split; [reflexivity|];
     split; [simpl; rewrite <- ?app_assoc; reflexivity|];
     simpl; repeat split; try done; try apply truncate_length; try lia);
    intros path Hp; by rewrite lookup_insert_ne.
Qed.

Lemma count_events_none (kind : event → bool) (evs : list event) :
  count_events kind evs = 0%nat → Forall (λ ev, kind ev = false) evs.
Proof.
  induction evs as [|ev rest IH]; simpl; intros H; [constructor|].
  destruct (kind ev) eqn:E; [lia|]. constructor; [done|]. apply IH. lia.
Qed.

(** The loop, from index [i] on: what it returns and what it does to
    the world. *)
Lemma extract_loop_effects (env : Env) (pid : str)
    (results : list SearchResult) :
  ∀ (i : nat) (acc : list ContentExtraction) (w : World),
  ∃ arts w' evs,
    extract_loop env pid i results acc w = (Ok (acc ++ arts), w')
    ∧ length arts = length results
    ∧ history w' = history w ++ evs
    ∧ count_events is_get evs = length results
    ∧ count_events is_sleep evs = length results
    ∧ count_events is_model evs = 0%nat
    ∧ count_events is_post evs = 0%nat
    ∧ (count_events is_partition evs ≤ length results)%nat
    ∧ Forall (λ ev, is_sleep ev = true → ev = EvSleep 2) evs
    ∧ (∀ path,
         (∀ k, (k < length results)%nat → path ≠ md_path pid (i + k)) →
         files w' !! path = files w !! path)
    ∧ Forall (λ a, (Z.of_nat (length (content a)) ≤ 15023)%Z) arts.
Proof.
  induction results as [|r rest IH]; intros i acc w.
  - exists [], w, []. simpl. rewrite !app_nil_r.
    repeat split; try done; try constructor.
  - destruct (extract_one_step env pid i r w)
      as (a & w1 & evs1 & E1 & Hh1 & Hg1 & Hs1 & Hm1 & Hp1 & Hpa1 & Hf1 & Hc1).
    destruct (IH (S i) (acc ++ [a]) (record_event (EvSleep 2) w1))
      as (arts & w2 & evs2 & E2 & Hlen & Hh2 & Hg2 & Hs2 & Hm2 & Hp2 & Hpa2
          & Hsl2 & Hf2 & Hc2).
    exists (a :: arts), w2, (evs1 ++ [EvSleep 2] ++ evs2).
    split.
    { simpl. unfold bind at 1. rewrite E1.
      unfold bind at 1. unfold sleep at 1.
      rewrite E2. by rewrite <- app_assoc. }
    split; [simpl; lia|].
    split.
    { rewrite Hh2. simpl. rewrite Hh1. by rewrite <- !app_assoc. }
    rewrite !count_events_app. simpl.
    repeat split; try lia.
    + apply Forall_app. split.
      * eapply Forall_impl; [apply count_events_none, Hs1|].
        simpl. intros ev H1 H2. congruence.
      * constructor; [done|exact Hsl2].
    + intros path Hpath. rewrite Hf2.
      * simpl. apply Hf1. specialize (Hpath 0%nat). rewrite Nat.add_0_r in Hpath.
        apply Hpath. simpl. lia.
      * intros k Hk. replace (S i + k)%nat with (i + S k)%nat by lia.
        apply Hpath. simpl. lia.
    + by constructor.
Qed.


(** X2: every artifact that [extract_content_from_urls] returns holds at
    most 15023 characters of text: the clipped text of a success, or
    the empty text of a failure. *)
Theorem extracted_content_is_bounded (env : Env)
    (search_results : SearchResults) (project_id : str) (w : World) :
  ∃ arts,
    fst (extract_content_from_urls env search_results project_id w) = Ok arts
    ∧ Forall (λ a, (Z.of_nat (length (content a)) ≤ 15023)%Z) arts.
Proof.
  destruct (extract_loop_effects env project_id
              (organic_results search_results) 0 [] w)
    as (arts & w' & evs & E & _ & _ & _ & _ & _ & _ & _ & _ & _ & Hc).
  exists arts. unfold extract_content_from_urls. by rewrite E.
Qed.

(** X3: [extract_content_from_urls] asks the reader service exactly once
    per result, sleeps exactly once per result and always for 2
    seconds, calls the local extractor at most once per result, and
    never calls the model or the search proxy. *)
Theorem extraction_requests_and_delays (env : Env)
    (search_results : SearchResults) (project_id : str) (w : World) :
  ∃ evs,
    history (snd (extract_content_from_urls env search_results project_id w))
    = history w ++ evs
    ∧ count_events is_get evs = length (organic_results search_results)
    ∧ count_events is_sleep evs = length (organic_results search_results)
    ∧ Forall (λ ev, is_sleep ev = true → ev = EvSleep 2) evs
    ∧ (count_events is_partition evs
       ≤ length (organic_results search_results))%nat
    ∧ count_events is_model evs = 0%nat
    ∧ count_events is_post evs = 0%nat.
Proof.
  destruct (extract_loop_effects env project_id
              (organic_results search_results) 0 [] w)
    as (arts & w' & evs & E & _ & Hh & Hg & Hs & Hm & Hp & Hpa & Hsl & _ & _).
  exists evs. unfold extract_content_from_urls. rewrite E. simpl.
  repeat split; done.
Qed.



(** ** Primary and fallback extractor *)

(** X5: when the reader service answers 200, the local extractor is not
    called: the iteration records the request and, if the text could be
    cleaned, the write of the [.md] file, and the artifact holds the
    clipped cleaned body of the answer. *)
Theorem reader_success_skips_local_extractor (env : Env) (project_id : str)
    (i : nat) (r : SearchResult) (w : World) (body : str) :
  requests_get env w (jina_url r) = Ok (200%nat, body) →
  ∃ a w',
    extract_one env project_id i r w = (Ok a, w')
    ∧ match group_broken_paragraphs env body with
      | Ok cleaned =>
          a = extracted r cleaned
          ∧ history w'
            = history w ++ [EvGet (jina_url r); EvWrite (md_path project_id i)]
      | Raise e =>
          a = failed_extraction r e
          ∧ history w' = history w ++ [EvGet (jina_url r)]
      end.
Proof.
  intros Hget.
  unfold extract_one, extract_one_try, fetch_content. unfold_monad.
  unfold jina_url in Hget. rewrite Hget. simpl.
  destruct (group_broken_paragraphs env body) as [cleaned|e]; simpl.
  - destruct (open_write env _ (md_path project_id i)); simpl;
      do 2 eexists; (split; [reflexivity|]); simpl;
      by rewrite <- app_assoc.
  - by do 2 eexists.
Qed.

Lemma reader_success_skips_local_extractor_witness :
  requests_get Demo.reader_for_article Demo.start (jina_url Demo.article)
  = Ok (200%nat,
        u "Farmers protested land acquisition for the solar project in 2021.")
  ∧ ∃ a w',
      extract_one Demo.reader_for_article (u "351") 0 Demo.article Demo.start
      = (Ok a, w')
      ∧ match group_broken_paragraphs Demo.reader_for_article
                (u "Farmers protested land acquisition for the solar project in 2021.") with
        | Ok cleaned =>
            a = extracted Demo.article cleaned
            ∧ history w'
              = history Demo.start
                  ++ [EvGet (jina_url Demo.article);
                      EvWrite (md_path (u "351") 0)]
        | Raise e =>
            a = failed_extraction Demo.article e
            ∧ history w' = history Demo.start ++ [EvGet (jina_url Demo.article)]
        end.
Proof.
  assert (H : requests_get Demo.reader_for_article Demo.start
                (jina_url Demo.article)
              = Ok (200%nat,
                    u "Farmers protested land acquisition for the solar project in 2021."))
    by (vm_compute; reflexivity).
  split; [exact H|].
  exact (reader_success_skips_local_extractor Demo.reader_for_article
           (u "351") 0 Demo.article Demo.start _ H).
Defined.



(** X7: the error message of a failed artifact is the message of the
    exception raised by the local extractor, called after the reader
    service failed, or by the cleaning of the fetched text; the failure
    of the reader service itself is never what the artifact reports. *)
Theorem failure_message_is_not_the_readers (env : Env) (project_id : str)
    (i : nat) (r : SearchResult) (w : World) :
  ∃ a w',
    extract_one env project_id i r w = (Ok a, w')
    ∧ (extraction_success a = true
       ∨ ∃ e, a = failed_extraction r e
           ∧ (partition env (record_event (EvGet (jina_url r)) w) (link r)
              = Raise e
              ∨ ∃ raw, group_broken_paragraphs env raw = Raise e)).
Proof.
  unfold extract_one, extract_one_try, fetch_content, jina_url.
  unfold_monad.
  destruct (requests_get env w _) as [[status body]|e0]; cbn;
    [destruct (status =? 200)%nat; cbn|];
    try (destruct (partition env _ (link r)) as [els|e1] eqn:Ep; cbn);
    try (destruct (group_broken_paragraphs env _) as [cleaned|e2] eqn:Ec;
         cbn);
    try (destruct (open_write env _ (md_path project_id i)); cbn);
    do 2 eexists; (split; [reflexivity|]); cbn; eauto 7.
Qed.

(** ** The evidence block of the analyzer *)

Lemma combine_content_spec (content_extractions : list ContentExtraction) :
  ∀ all_content sources_with_content,
    combine_content content_extractions all_content sources_with_content
    = (all_content
         ++ List.concat (map section_of
                      (filter (λ a, has_content a = true) content_extractions)),
       sources_with_content
         ++ map url (filter (λ a, has_content a = true) content_extractions)).
Proof.
  induction content_extractions as [|a rest IH]; intros acc srcs.
  - cbn. by rewrite !app_nil_r.
  - cbn [combine_content]. rewrite filter_cons.
    change (extraction_success a && Py.truthy (content a))
      with (has_content a).
    destruct (has_content a) eqn:E.
    + rewrite decide_True by done. rewrite IH. cbn [map List.concat].
      unfold section_of. by rewrite <- !app_assoc.
    + rewrite decide_False by done. apply IH.
Qed.

(** X8: the evidence block is the concatenation, in input order, of the
    sections of the artifacts that succeeded with non-empty text, and
    the list of sources gathered with it is the list of their URLs;
    failed and empty artifacts contribute nothing to either. *)
Theorem evidence_block_holds_successful_artifacts
    (content_extractions : list ContentExtraction) :
  combine_content content_extractions [] []
  = (List.concat (map section_of
               (filter (λ a, has_content a = true) content_extractions)),
     map url (filter (λ a, has_content a = true) content_extractions)).
Proof. by rewrite combine_content_spec. Qed.

Lemma lstrip_keeps (c : N) (s : str) :
  Py.isspace c = false → c ∈ s → c ∈ Py.lstrip s.
Proof.
  intros Hc. induction s as [|x s IH]; intros Hin; [done|].
  cbn [Py.lstrip]. destruct (Py.isspace x) eqn:Ex; [|done].
  apply elem_of_cons in Hin as [->|Hin]; [congruence|]. by apply IH.
Qed.

Lemma strip_truthy (c : N) (s : str) :
  Py.isspace c = false → c ∈ s → Py.truthy (Py.strip s) = true.
Proof.
  intros Hc Hin. unfold Py.strip.
  assert (H : c ∈ reverse (Py.lstrip (reverse (Py.lstrip s)))).
  { apply elem_of_reverse, lstrip_keeps; [done|].
    by apply elem_of_reverse, lstrip_keeps. }
  destruct (reverse _); [by apply elem_of_nil in H|done].
Qed.

Lemma section_has_dash (a : ContentExtraction) : 45 ∈ section_of a.
Proof.
  unfold section_of, nl.
  change (u "--- Content from ") with (45 :: u "-- Content from ").
  cbn [app]. do 2 right. left.
Qed.

Lemma gathered_content_truthy (content_extractions : list ContentExtraction) :
  Py.truthy (Py.strip (gathered_content content_extractions))
  = existsb has_content content_extractions.
Proof.
  unfold gathered_content. rewrite combine_content_spec. cbn [fst app].
  induction content_extractions as [|a rest IH]; [done|].
  rewrite filter_cons. cbn [existsb].
  destruct (has_content a) eqn:E.
  - rewrite decide_True by done. cbn [map List.concat orb].
    apply (strip_truthy 45); [done|].
    apply elem_of_app. left. apply section_has_dash.
  - rewrite decide_False by done. exact IH.
Qed.

(** X9: [analyze_opposition] calls the model exactly once, with the
    prompt built from the evidence block, when some artifact succeeded
    with non-empty text, and not at all otherwise; it never touches a
    file. *)
Theorem model_is_called_iff_there_is_content (env : Env)
    (project_data : gmap str pyval)
    (content_extractions : list ContentExtraction) (w : World) :
  snd (analyze_opposition env project_data content_extractions w)
  = if existsb has_content content_extractions
    then record_event
           (EvModel (analysis_prompt project_data
                       (gathered_content content_extractions))) w
    else w.
Proof.
  pose proof (gathered_content_truthy content_extractions) as Ht.
  unfold analyze_opposition, gathered_content in *.
  destruct (combine_content content_extractions [] []) as [all_content srcs].
  cbn [fst] in *. rewrite Ht.
  destruct (existsb has_content content_extractions); cbn; [|done].
  unfold analyze_opposition_try. unfold_monad.
  destruct (generate_content env w _) as [reply|e]; cbn; [|done].
  destruct (response_text reply); cbn; [|done].
  destruct (extract_json_text _ _); cbn; [|done].
  destruct (json_loads env _); cbn; [|done].
  by destruct (validate_analysis env _).
Qed.

(** ** Persistence *)

Lemma step_dir_valid (step dir : str) :
  step_dir step = Ok dir → dir = step ∧ step ∈ valid_steps.
Proof.
  unfold step_dir, Py.str_eqb, valid_steps.
  repeat case_bool_decide; intros Hdir; inversion Hdir; subst;
    split; try done; set_solver.
Qed.

Lemma step_dir_invalid (step : str) :
  step ∉ valid_steps →
  step_dir step = Raise (Exception (u "Invalid step: " ++ step)).
Proof.
  unfold step_dir, Py.str_eqb, valid_steps. intros Hstep.
  repeat case_bool_decide; try done; subst; exfalso; apply Hstep; set_solver.
Qed.

(** What a successful save does to the files. *)
Lemma save_data_files (env : Env) (project_id : pyval) (step : str)
    (data : json) (w w' : World) :
  save_data env project_id step data w = (Ok tt, w') →
  step ∈ valid_steps
  ∧ files w' = <[save_path project_id step := Document data]> (files w)
  ∧ history w' = history w ++ [EvWrite (save_path project_id step)].
Proof.
  unfold save_data. unfold_monad. intros H.
  destruct (step_dir step) as [dir|e] eqn:Ed; [|discriminate H].
  apply step_dir_valid in Ed as [-> Hin].
  fold (save_path project_id step) in H.
  destruct (open_write env w _); inversion H; subst. done.
Qed.



(** X11: [save_data] with a step other than search, content, result and
    summary raises the error that names the step, and does nothing
    else: no file is opened and the world is as before. *)
Theorem save_data_rejects_unknown_step (env : Env) (project_id : pyval)
    (step : str) (data : json) (w : World) :
  step ∉ valid_steps →
  save_data env project_id step data w
  = (Raise (Exception (u "Invalid step: " ++ step)), w).
Proof.
  intros H. unfold save_data. unfold_monad.
  by rewrite (step_dir_invalid step H).
Qed.

Lemma save_data_rejects_unknown_step_witness :
  (u "report" ∉ valid_steps)
  ∧ save_data Demo.offline (PStr (u "351")) (u "report") JNull Demo.start
    = (Raise (Exception (u "Invalid step: " ++ u "report")), Demo.start).
Proof.
  assert (H : u "report" ∉ valid_steps).
  { unfold valid_steps. intros Hin.
    repeat (apply elem_of_cons in Hin as [Hin|Hin];
            [vm_compute in Hin; discriminate Hin|]).
    by apply elem_of_nil in Hin. }
  split; [exact H|].
  exact (save_data_rejects_unknown_step Demo.offline (PStr (u "351"))
           (u "report") JNull Demo.start H).
Defined.

(** X12: saving twice for the same project and step keeps the last
    document only: the files are those of a single save of the second
    document, so a repeated save of the same document changes
    nothing. *)
Theorem save_data_overwrites (env : Env) (project_id : pyval) (step : str)
    (first second : json) (w w1 w2 : World) :
  save_data env project_id step first w = (Ok tt, w1) →
  save_data env project_id step second w1 = (Ok tt, w2) →
  (files w2
   = <[step ++ u "/" ++ format project_id ++ u ".json" := Document second]>
       (files w))
  ∧ (first = second → files w2 = files w1).
Proof.
  intros H1 H2.
  apply save_data_files in H1 as (_ & Hf1 & _).
  apply save_data_files in H2 as (_ & Hf2 & _).
  unfold save_path in *. rewrite Hf2, Hf1.
  split; [by rewrite insert_insert_eq|].
  intros ->. by rewrite insert_insert_eq.
Qed.

Lemma save_data_overwrites_witness :
  ∃ w1 w2,
    save_data Demo.offline (PStr (u "351")) (u "search")
      Stored.earlier_queries Demo.start = (Ok tt, w1)
    ∧ save_data Demo.offline (PStr (u "351")) (u "search")
        (dump_queries Demo.solar_queries) w1 = (Ok tt, w2)
    ∧ (files w2
       = <[u "search" ++ u "/" ++ format (PStr (u "351")) ++ u ".json"
           := Document (dump_queries Demo.solar_queries)]> (files Demo.start))
    ∧ (Stored.earlier_queries = dump_queries Demo.solar_queries →
       files w2 = files w1).
Proof.
  do 2 eexists. split; [reflexivity|]. split; [reflexivity|].
  eapply (save_data_overwrites Demo.offline (PStr (u "351")) (u "search")
            Stored.earlier_queries (dump_queries Demo.solar_queries)
            Demo.start); reflexivity.
Defined.

(** ** Effects of query synthesis and of a search *)

Lemma generate_search_queries_world (env : Env)
    (project_data : gmap str pyval) (w : World) :
  snd (generate_search_queries env project_data w)
  = record_event (EvModel (queries_prompt project_data)) w.
Proof.
  unfold generate_search_queries, generate_search_queries_try.
  unfold_monad.
  destruct (generate_content env w _) as [reply|e]; cbn; [|done].
  destruct (response_text reply); cbn; [|done].
  destruct (extract_json_text _ _); cbn; [|done].
  destruct (json_loads env _); cbn; [|done].
  by destruct (validate_queries env _).
Qed.

Lemma search_world (env : Env) (query language : str) (w : World) :
  snd (search_with_brightdata env query language w)
  = record_event (EvPost (search_url env query)) w.
Proof.
  unfold search_with_brightdata, search_with_brightdata_try,
    parse_search_response.
  unfold_monad.
  destruct (requests_post env w (search_url env query)) as [resp|e];
    cbn; [|done].
  destruct (status_code resp =? 200)%nat; cbn; [|done].
  destruct (json_body resp) as [data|[msg|msg]]; cbn; [|done..].
  destruct (json_keys data) as [keys|[msg|msg]]; cbn; [|done..].
  destruct (json_field "body" data) as [[| | | |body| |]|]; cbn; try done.
  by destruct (select_results env body) as [blocks|[msg|msg]].
Qed.

(** X13: [generate_search_queries] calls the model exactly once with the
    prompt of the project, whatever the reply is and whether or not it
    can be parsed (no second attempt), and touches no file. *)
Theorem query_synthesis_calls_model_once (env : Env)
    (project_data : gmap str pyval) (w : World) :
  ∃ q,
    generate_search_queries env project_data w
    = (Ok q,
       {| files := files w;
          history := history w ++ [EvModel (queries_prompt project_data)] |}).
Proof.
  destruct (generate_search_queries_total env project_data w)
    as (q & w' & E).
  exists q. rewrite E. f_equal.
  pose proof (generate_search_queries_world env project_data w) as Hw.
  rewrite E in Hw. exact Hw.
Qed.


(** ** What the orchestrator leaves behind *)

Lemma md_path_not_save_path (project_id' : str) (i : nat)
    (project_id : pyval) (step : str) :
  md_path project_id' i ≠ save_path project_id step.
Proof.
  intros H. apply (f_equal last) in H. unfold md_path, save_path in H.
  change (u ".md") with ([46; 109] ++ [100]) in H.
  change (u ".json") with ([46; 106; 115; 111] ++ [110]) in H.
  rewrite !app_assoc, !last_snoc in H. discriminate H.
Qed.

Lemma save_paths_differ (project_id : pyval) (s1 s2 : str) :
  s1 ∈ valid_steps → s2 ∈ valid_steps → s1 ≠ s2 →
  save_path project_id s1 ≠ save_path project_id s2.
Proof.
  unfold valid_steps. intros H1 H2 Hne.
  repeat (apply elem_of_cons in H1 as [->|H1]);
    try (by apply elem_of_nil in H1);
    repeat (apply elem_of_cons in H2 as [->|H2]);
    try (by apply elem_of_nil in H2);
    try done;
    intros H; cbv in H; discriminate H.
Qed.

Lemma analyze_opposition_world_files (env : Env)
    (project_data : gmap str pyval)
    (content_extractions : list ContentExtraction) (w : World) :
  files (snd (analyze_opposition env project_data content_extractions w))
  = files w
  ∧ ∃ evs,
      history (snd (analyze_opposition env project_data
                      content_extractions w)) = history w ++ evs
      ∧ (count_events is_model evs ≤ 1)%nat
      ∧ count_events is_post evs = 0%nat
      ∧ count_events is_get evs = 0%nat
      ∧ count_events is_sleep evs = 0%nat
      ∧ count_events is_partition evs = 0%nat.
Proof.
  unfold analyze_opposition.
  destruct (combine_content content_extractions [] []) as [all_content srcs].
  destruct (negb (Py.truthy (Py.strip all_content))).
  { cbn. split; [done|]. exists []. rewrite app_nil_r. cbn.
    repeat split; lia. }
  assert (Hw : snd (try_catch
                      (analyze_opposition_try env
                         (analysis_prompt project_data all_content))
                      (λ e, ret (error_analysis e)) w)
               = record_event
                   (EvModel (analysis_prompt project_data all_content)) w).
  { unfold analyze_opposition_try. unfold_monad.
    destruct (generate_content env w _) as [reply|e]; cbn; [|done].
    destruct (response_text reply); cbn; [|done].
    destruct (extract_json_text _ _); cbn; [|done].
    destruct (json_loads env _); cbn; [|done].
    by destruct (validate_analysis env _). }
  rewrite Hw. cbn. split; [done|]. eexists [_]. split; [done|].
  cbn. repeat split; lia.
Qed.

Lemma valid_step_search : u "search" ∈ valid_steps.
Proof. unfold valid_steps. set_solver. Qed.
Lemma valid_step_content : u "content" ∈ valid_steps.
Proof. unfold valid_steps. set_solver. Qed.
Lemma valid_step_result : u "result" ∈ valid_steps.
Proof. unfold valid_steps. set_solver. Qed.
Lemma valid_step_summary : u "summary" ∈ valid_steps.
Proof. unfold valid_steps. set_solver. Qed.

(** What a normal end of the [try] block of [analyze_project] tells. *)
Lemma analyze_project_try_ok (env : Env) (pid : pyval)
    (project_data : gmap str pyval) (w w' : World) (report : ProjectReport) :
  analyze_project_try env pid project_data w = (Ok report, w') →
  ∃ q b1 b2 arts v,
    let en := results_from env b1 (english_query q) (u "en") in
    let bn := results_from env b2 (bangla_query q) (u "bn") in
    let all := combined_results en bn q in
    report = Analysed pid (pd_get project_data "project_name" "Unknown") v
               (length (organic_results all))
               (length (filter (λ c, extraction_success c = true) arts))
    ∧ length arts = length (organic_results all)
    ∧ files w' !! save_path pid (u "summary")
      = Some (Document (dump_analysis v))
    ∧ files w' !! save_path pid (u "content")
      = Some (Document (JArr (map dump_extraction arts)))
    ∧ files w' !! save_path pid (u "result")
      = Some (Document
                (JObj [(u "english_search", results_dict en);
                       (u "bangla_search", results_dict bn);
                       (u "combined_results", results_dict all)]))
    ∧ files w' !! save_path pid (u "search")
      = Some (Document (dump_queries q)).
Proof.
  unfold analyze_project_try, search_both. intros H.
  apply bind_ok_inv in H as (all & w5 & Hboth & H).
  apply bind_ok_inv in Hboth as (q & w1 & E1 & Hboth).
  apply bind_ok_inv in Hboth as ([] & w2 & E2 & Hboth).
  apply bind_ok_inv in Hboth as (en & w3 & E3 & Hboth).
  apply bind_ok_inv in Hboth as (bn & w4 & E4 & Hboth).
  apply bind_ok_inv in Hboth as ([] & w5' & E5 & Hboth).
  inversion Hboth; subst all w5'. clear Hboth.
  apply bind_ok_inv in H as (arts & w6 & E6 & H).
  apply bind_ok_inv in H as ([] & w7 & E7 & H).
  apply bind_ok_inv in H as (v & w8 & E8 & H).
  apply bind_ok_inv in H as ([] & w9 & E9 & H).
  inversion H; subst report w9. clear H.
  (* the two searches *)
  destruct (search_total env (english_query q) (u "en") w2)
    as (b1 & w3' & E3').
  rewrite E3 in E3'. inversion E3'; subst en w3'. clear E3'.
  destruct (search_total env (bangla_query q) (u "bn") w3)
    as (b2 & w4' & E4').
  rewrite E4 in E4'. inversion E4'; subst bn w4'. clear E4'.
  exists q, b1, b2, arts, v. cbn zeta.
  set (en := results_from env b1 (english_query q) (u "en")) in *.
  set (bn := results_from env b2 (bangla_query q) (u "bn")) in *.
  set (all := combined_results en bn q) in *.
  (* the worlds *)
  pose proof (generate_search_queries_world env project_data w) as W1.
  rewrite E1 in W1. cbn in W1.
  pose proof (search_world env (english_query q) (u "en") w2) as W3.
  rewrite E3 in W3. cbn in W3.
  pose proof (search_world env (bangla_query q) (u "bn") w3) as W4.
  rewrite E4 in W4. cbn in W4.
  apply save_data_files in E2 as (_ & F2 & _).
  apply save_data_files in E5 as (_ & F5 & _).
  apply save_data_files in E7 as (_ & F7 & _).
  apply save_data_files in E9 as (_ & F9 & _).
  destruct (analyze_opposition_world_files env project_data arts w7)
    as (F8 & _).
  rewrite E8 in F8. cbn in F8.
  destruct (extract_loop_effects env (format pid) (organic_results all)
              0 [] w5)
    as (arts' & w6' & evs & E6' & Hlen & _ & _ & _ & _ & _ & _ & _ & F6 & _).
  unfold extract_content_from_urls in E6. rewrite E6 in E6'.
  inversion E6'; subst arts' w6'. clear E6'.
  assert (F6' : ∀ step, files w6 !! save_path pid step
                        = files w5 !! save_path pid step).
  { intros step. apply F6. intros k _ Heq. symmetry in Heq.
    by apply md_path_not_save_path in Heq. }
  split; [done|]. split; [done|].
  rewrite F9, F8, F7.
  split; [by rewrite lookup_insert_eq|].
  split.
  { rewrite lookup_insert_ne
      by (apply save_paths_differ;
          [apply valid_step_summary|apply valid_step_content|
           intros Hs; cbv in Hs; discriminate Hs]).
    by rewrite lookup_insert_eq. }
  split.
  { rewrite !lookup_insert_ne
      by (apply save_paths_differ;
          [first [apply valid_step_summary|apply valid_step_content]
          |apply valid_step_result|intros Hs; cbv in Hs; discriminate Hs]).
    rewrite F6', F5. by rewrite lookup_insert_eq. }
  rewrite !lookup_insert_ne
    by (apply save_paths_differ;
        [first [apply valid_step_summary|apply valid_step_content]
        |apply valid_step_search|intros Hs; cbv in Hs; discriminate Hs]).
  rewrite F6', F5.
  rewrite lookup_insert_ne
    by (apply save_paths_differ;
        [apply valid_step_result|apply valid_step_search|
         intros Hs; cbv in Hs; discriminate Hs]).
  subst w4 w3. cbn. rewrite F2. by rewrite lookup_insert_eq.
Qed.

Lemma analyze_project_analysed (env : Env) (project_data : gmap str pyval)
    (w w' : World) (pid name : pyval) (analysis : OppositionAnalysis)
    (found extracted : nat) :
  analyze_project env project_data w
  = (Ok (Analysed pid name analysis found extracted), w') →
  pid = pd_get project_data "project_id" "unknown"
  ∧ analyze_project_try env pid project_data w
    = (Ok (Analysed pid name analysis found extracted), w').
Proof.
  unfold analyze_project, try_catch.
  destruct (analyze_project_try env _ project_data w) as [[r|e] w1] eqn:E;
    intros H; [|discriminate H].
  inversion H; subst r w1. clear H.
  destruct (analyze_project_try_ok _ _ _ _ _ _ E)
    as (q & b1 & b2 & arts & v & Hr & _).
  inversion Hr. subst. done.
Qed.



(** X16: in a normal report of [analyze_project] the number of URLs
    found is at most 20 (ten per language) and the number of extracted
    contents is at most the number of URLs found. *)
Theorem report_counts_are_bounded (env : Env)
    (project_data : gmap str pyval) (w w' : World) (pid name : pyval)
    (analysis : OppositionAnalysis) (found extracted : nat) :
  analyze_project env project_data w
  = (Ok (Analysed pid name analysis found extracted), w') →
  (extracted ≤ found ≤ 20)%nat.
Proof.
  intros H. apply analyze_project_analysed in H as (_ & H).
  apply analyze_project_try_ok in H
    as (q & b1 & b2 & arts & v & Hr & Hlen & _).
  inversion Hr; subst. clear Hr. cbn in *. split.
  - rewrite <- Hlen. apply length_filter.
  - rewrite length_app.
    pose proof (parse_elements_length env (take 10 b1) 0) as H1.
    pose proof (parse_elements_length env (take 10 b2) 0) as H2.
    rewrite length_take in H1, H2. lia.
Qed.

Lemma report_counts_are_bounded_witness :
  ∃ w' analysis,
    analyze_project Cases.search_and_reader Demo.project_351 Demo.start
    = (Ok (Analysed (PStr (u "351"))
             (PStr (u "100 MW Solar Park by Dynamic Sun Energy Private Limited"))
             analysis 2 2), w')
    ∧ (2 ≤ 2 ≤ 20)%nat.
Proof.
  exists (snd (analyze_project Cases.search_and_reader Demo.project_351
                 Demo.start)),
         (error_analysis Demo.refused).
  assert (H : analyze_project Cases.search_and_reader Demo.project_351
                Demo.start
              = (Ok (Analysed (PStr (u "351"))
                       (PStr (u "100 MW Solar Park by Dynamic Sun Energy Private Limited"))
                       (error_analysis Demo.refused) 2 2),
                 snd (analyze_project Cases.search_and_reader
                        Demo.project_351 Demo.start)))
    by (vm_compute; reflexivity).
  split; [exact H|].
  exact (report_counts_are_bounded _ _ _ _ _ _ _ _ _ H).
Defined.

(** ** The budget of external calls *)

Lemma spends_refl (w : World) : spends 0 0 0 w w.
Proof.
  exists []. rewrite app_nil_r. cbn. repeat split; lia.
Qed.

Lemma spends_trans (m1 p1 g1 m2 p2 g2 : nat) (w w1 w2 : World) :
  spends m1 p1 g1 w w1 → spends m2 p2 g2 w1 w2 →
  spends (m1 + m2) (p1 + p2) (g1 + g2) w w2.
Proof.
  intros (evs1 & H1 & ?) (evs2 & H2 & ?).
  exists (evs1 ++ evs2). rewrite H2, H1, <- app_assoc.
  rewrite !count_events_app. repeat split; try done; lia.
Qed.

Lemma spends_weaken (m p g m' p' g' : nat) (w w' : World) :
  (m ≤ m')%nat → (p ≤ p')%nat → (g ≤ g')%nat →
  spends m p g w w' → spends m' p' g' w w'.
Proof.
  intros ? ? ? (evs & H & ?). exists evs. repeat split; try done; lia.
Qed.

(** A stage followed by the rest of the computation. *)
Lemma bind_spends {A B} (stage : M A) (rest : A → M B) (w : World)
    (m1 p1 g1 m2 p2 g2 : nat) :
  spends m1 p1 g1 w (snd (stage w)) →
  (∀ a w1, stage w = (Ok a, w1) → spends m2 p2 g2 w1 (snd (rest a w1))) →
  spends (m1 + m2) (p1 + p2) (g1 + g2) w (snd (bind stage rest w)).
Proof.
  intros H1 H2. unfold bind.
  destruct (stage w) as [[a|e] w1] eqn:E; cbn in *.
  - eapply spends_trans; [exact H1|]. by apply H2.
  - eapply spends_weaken; [| | |exact H1]; lia.
Qed.

Lemma save_data_spends (env : Env) (project_id : pyval) (step : str)
    (data : json) (w : World) :
  spends 0 0 0 w (snd (save_data env project_id step data w)).
Proof.
  unfold save_data. unfold_monad.
  destruct (step_dir step) as [dir|e]; cbn; [|apply spends_refl].
  destruct (open_write env w _); cbn;
    (eexists [_]; split; [reflexivity|]; cbn; repeat split; lia).
Qed.

Lemma generate_search_queries_spends (env : Env)
    (project_data : gmap str pyval) (w : World) :
  spends 1 0 0 w (snd (generate_search_queries env project_data w)).
Proof.
  rewrite generate_search_queries_world.
  eexists [_]. split; [reflexivity|]. cbn. repeat split; lia.
Qed.

Lemma search_spends (env : Env) (query tag : str) (w : World) :
  spends 0 1 0 w (snd (search_with_brightdata env query tag w)).
Proof.
  rewrite search_world.
  eexists [_]. split; [reflexivity|]. cbn. repeat split; lia.
Qed.

Lemma extract_content_spends (env : Env) (search_results : SearchResults)
    (project_id : str) (w : World) :
  spends 0 0 (length (organic_results search_results)) w
    (snd (extract_content_from_urls env search_results project_id w)).
Proof.
  destruct (extract_loop_effects env project_id
              (organic_results search_results) 0 [] w)
    as (arts & w' & evs & E & _ & Hh & Hg & Hs & Hm & Hp & Hpa & _).
  unfold extract_content_from_urls. rewrite E. cbn.
  exists evs. repeat split; try done; lia.
Qed.

Lemma analyze_opposition_spends (env : Env) (project_data : gmap str pyval)
    (content_extractions : list ContentExtraction) (w : World) :
  spends 1 0 0 w
    (snd (analyze_opposition env project_data content_extractions w)).
Proof.
  destruct (analyze_opposition_world_files env project_data
              content_extractions w) as (_ & evs & H & ? & ? & ? & ? & ?).
  exists evs. repeat split; try done; lia.
Qed.

Lemma search_both_found (env : Env) (pid : pyval)
    (project_data : gmap str pyval) (w w' : World) (all : SearchResults) :
  search_both env pid project_data w = (Ok all, w') →
  (length (organic_results all) ≤ 20)%nat.
Proof.
  unfold search_both. intros H.
  apply bind_ok_inv in H as (q & w1 & _ & H).
  apply bind_ok_inv in H as ([] & w2 & _ & H).
  apply bind_ok_inv in H as (en & w3 & E3 & H).
  apply bind_ok_inv in H as (bn & w4 & E4 & H).
  apply bind_ok_inv in H as ([] & w5 & _ & H).
  inversion H; subst all w5. clear H.
  destruct (search_total env (english_query q) (u "en") w2)
    as (b1 & w3' & E3').
  rewrite E3 in E3'. inversion E3'; subst en w3'.
  destruct (search_total env (bangla_query q) (u "bn") w3)
    as (b2 & w4' & E4').
  rewrite E4 in E4'. inversion E4'; subst bn w4'.
  cbn. rewrite length_app.
  pose proof (parse_elements_length env (take 10 b1) 0) as H1.
  pose proof (parse_elements_length env (take 10 b2) 0) as H2.
  rewrite length_take in H1, H2. lia.
Qed.

Lemma search_both_spends (env : Env) (pid : pyval)
    (project_data : gmap str pyval) (w : World) :
  spends 1 2 0 w (snd (search_both env pid project_data w)).
Proof.
  unfold search_both.
  apply (bind_spends _ _ w 1 0 0 0 2 0);
    [apply generate_search_queries_spends|]. intros q w1 _.
  apply (bind_spends _ _ w1 0 0 0 0 2 0); [apply save_data_spends|].
  intros [] w2 _.
  apply (bind_spends _ _ w2 0 1 0 0 1 0); [apply search_spends|].
  intros en w3 _.
  apply (bind_spends _ _ w3 0 1 0 0 0 0); [apply search_spends|].
  intros bn w4 _.
  apply (bind_spends _ _ w4 0 0 0 0 0 0); [apply save_data_spends|].
  intros [] w5 _. apply spends_refl.
Qed.

(** X17: one run of [analyze_project], whatever its outcome, calls the
    model at most twice, sends at most two search requests and at most
    20 requests to the reader service, sleeps once per reader request,
    and calls the local extractor at most once per reader request. *)
Theorem analyze_project_call_budget (env : Env)
    (project_data : gmap str pyval) (w : World) :
  ∃ evs,
    history (snd (analyze_project env project_data w)) = history w ++ evs
    ∧ (count_events is_model evs ≤ 2)%nat
    ∧ (count_events is_post evs ≤ 2)%nat
    ∧ (count_events is_get evs ≤ 20)%nat
    ∧ count_events is_sleep evs = count_events is_get evs
    ∧ (count_events is_partition evs ≤ count_events is_get evs)%nat.
Proof.
  set (pid := pd_get project_data "project_id" "unknown").
  assert (Hsnd : snd (analyze_project env project_data w)
                 = snd (analyze_project_try env pid project_data w)).
  { unfold analyze_project, try_catch. fold pid.
    by destruct (analyze_project_try env pid project_data w) as [[r|e] w']. }
  rewrite Hsnd. fold (spends 2 2 20 w
                        (snd (analyze_project_try env pid project_data w))).
  unfold analyze_project_try.
  apply (bind_spends _ _ w 1 2 0 1 0 20); [apply search_both_spends|].
  intros all w5 Hall. apply search_both_found in Hall.
  apply (bind_spends _ _ w5 0 0 20 1 0 0).
  { eapply spends_weaken; [| | |apply extract_content_spends]; lia. }
  intros arts w6 _.
  apply (bind_spends _ _ w6 0 0 0 1 0 0); [apply save_data_spends|].
  intros [] w7 _.
  apply (bind_spends _ _ w7 1 0 0 0 0 0); [apply analyze_opposition_spends|].
  intros v w8 _.
  apply (bind_spends _ _ w8 0 0 0 0 0 0); [apply save_data_spends|].
  intros [] w9 _. apply spends_refl.
Qed.

(** ** Descriptions are trimmed *)

Lemma lstrip_head (s : str) (c : N) :
  head (Py.lstrip s) = Some c → Py.isspace c = false.
Proof.
  induction s as [|x s IH]; cbn [Py.lstrip]; [done|].
  destruct (Py.isspace x) eqn:Ex; [exact IH|].
  cbn. intros H. by inversion H; subst.
Qed.

Lemma lstrip_fixed (s : str) :
  (∀ c, head s = Some c → Py.isspace c = false) → Py.lstrip s = s.
Proof.
  destruct s as [|x s]; [done|]. intros H. cbn [Py.lstrip].
  by rewrite (H x eq_refl).
Qed.

Lemma lstrip_suffix (s : str) : ∃ pre, s = pre ++ Py.lstrip s.
Proof.
  induction s as [|x s [pre IH]]; [by exists []|].
  cbn [Py.lstrip]. destruct (Py.isspace x).
  - exists (x :: pre). cbn. by rewrite <- IH.
  - by exists [].
Qed.

Lemma head_reverse (s : str) : head (reverse s) = last s.
Proof.
  induction s as [|x s IH] using rev_ind; [done|].
  by rewrite reverse_snoc, last_snoc.
Qed.

(** The text [strip] returns has no white space at either end, so that
    stripping it again changes nothing. *)
Lemma strip_idempotent (s : str) : Py.strip (Py.strip s) = Py.strip s.
Proof.
  unfold Py.strip.
  set (t := Py.lstrip s). set (r := Py.lstrip (reverse t)).
  assert (Hr : Py.lstrip r = r).
  { apply lstrip_fixed. intros c. apply lstrip_head. }
  assert (Hrev : Py.lstrip (reverse r) = reverse r).
  { apply lstrip_fixed. intros c Hc. rewrite head_reverse in Hc.
    destruct (lstrip_suffix (reverse t)) as [pre Hpre]. fold r in Hpre.
    assert (Hlast : last (reverse t) = Some c).
    { rewrite Hpre. destruct r as [|y r'] using rev_ind; [done|].
      rewrite app_assoc, last_snoc. by rewrite last_snoc in Hc. }
    rewrite <- head_reverse, reverse_involutive in Hlast.
    by apply (lstrip_head s). }
  by rewrite Hrev, reverse_involutive, Hr.
Qed.

Lemma element_description_stripped (env : Env) (el : element) (t : str) :
  Py.strip (element_description env el t) = element_description env el t.
Proof.
  unfold element_description.
  set (d := if Py.truthy (first_snippet env (spans el)) then _ else _).
  destruct (Py.truthy d) eqn:Hd; [apply strip_idempotent|].
  by destruct d.
Qed.

Lemma stripped_ends (s : str) :
  Py.strip s = s →
  (∀ c, head s = Some c → Py.isspace c = false)
  ∧ (∀ c, last s = Some c → Py.isspace c = false).
Proof.
  intros Hs. split; intros c Hc; rewrite <- Hs in Hc; unfold Py.strip in Hc.
  - rewrite head_reverse in Hc.
    set (r := Py.lstrip (reverse (Py.lstrip s))) in Hc.
    destruct (lstrip_suffix (reverse (Py.lstrip s))) as [pre Hpre].
    fold r in Hpre.
    assert (Hlast : last (reverse (Py.lstrip s)) = Some c).
    { rewrite Hpre. destruct r as [|y r' _] using rev_ind; [done|].
      rewrite app_assoc, last_snoc. by rewrite last_snoc in Hc. }
    rewrite <- head_reverse, reverse_involutive in Hlast.
    by apply (lstrip_head s).
  - rewrite <- head_reverse, reverse_involutive in Hc.
    by apply lstrip_head in Hc.
Qed.

Lemma parse_elements_trimmed (env : Env) (blocks : list element) :
  ∀ i, Forall (λ x, Py.strip (description x) = description x)
         (parse_elements env i blocks).
Proof.
  induction blocks as [|el rest IH]; intros i; cbn [parse_elements].
  - constructor.
  - destruct (element_title_link el) as [t l].
    apply Forall_app. split; [|apply IH].
    destruct (Py.truthy t || Py.truthy l); [|constructor].
    constructor; [|constructor]. cbn [description].
    apply element_description_stripped.
Qed.

(** X18: the description of every result that [search_with_brightdata]
    returns is trimmed: stripping it again leaves it unchanged, and it
    neither starts nor ends with white space. *)
Theorem descriptions_are_trimmed (env : Env) (query tag : str) (w : World) :
  ∃ r,
    fst (search_with_brightdata env query tag w) = Ok r
    ∧ Forall (λ x, Py.strip (description x) = description x
                   ∧ (∀ c, head (description x) = Some c →
                           Py.isspace c = false)
                   ∧ (∀ c, last (description x) = Some c →
                           Py.isspace c = false))
        (organic_results r).
Proof.
  destruct (search_total env query tag w) as (blocks & w' & E).
  exists (results_from env blocks query tag). rewrite E. split; [done|].
  cbn [organic_results results_from].
  eapply Forall_impl; [apply parse_elements_trimmed|].
  intros x Hx. cbn beta in *. split; [exact Hx|].
  by apply stripped_ends.
Qed.

(** ** Where a failed project comes from *)

Lemma save_data_raise (env : Env) (project_id : pyval) (step : str)
    (data : json) (w w' : World) (e : exn) :
  step ∈ valid_steps →
  save_data env project_id step data w = (Raise e, w') →
  open_write env w (save_path project_id step) = Raise e.
Proof.
  intros Hstep. unfold save_data. unfold_monad.
  destruct (step_dir step) as [dir|e0] eqn:Ed.
  - apply step_dir_valid in Ed as [-> _].
    fold (save_path project_id step).
    destruct (open_write env w _); intros H; inversion H; by subst.
  - exfalso. unfold valid_steps in Hstep.
    repeat (apply elem_of_cons in Hstep as [->|Hstep]);
      try (by apply elem_of_nil in Hstep); cbv in Ed; discriminate Ed.
Qed.

(** An exception leaves the [try] block of [analyze_project] only when
    one of the four documents could not be written. *)
Lemma analyze_project_try_raise (env : Env) (pid : pyval)
    (project_data : gmap str pyval) (w w' : World) (e : exn) :
  analyze_project_try env pid project_data w = (Raise e, w') →
  ∃ w0 step,
    step ∈ valid_steps
    ∧ open_write env w0 (save_path pid step) = Raise e.
Proof.
  unfold analyze_project_try, search_both. intros H.
  destruct (generate_search_queries_total env project_data w)
    as (q & w1 & E1).
  unfold bind at 1 in H. unfold bind at 1 in H. rewrite E1 in H.
  unfold bind at 1 in H.
  destruct (save_data env pid (u "search") (dump_queries q) w1)
    as [[[]|e2] w2] eqn:E2.
  2: { inversion H; subst. exists w1, (u "search").
       split; [apply valid_step_search|].
       eapply save_data_raise; [apply valid_step_search|exact E2]. }
  destruct (search_total env (english_query q) (u "en") w2)
    as (b1 & w3 & E3).
  unfold bind at 1 in H. rewrite E3 in H.
  destruct (search_total env (bangla_query q) (u "bn") w3)
    as (b2 & w4 & E4).
  unfold bind at 1 in H. rewrite E4 in H.
  unfold bind at 1 in H.
  destruct (save_data env pid (u "result") _ w4) as [[[]|e5] w5] eqn:E5.
  2: { inversion H; subst. exists w4, (u "result").
       split; [apply valid_step_result|].
       eapply save_data_raise; [apply valid_step_result|exact E5]. }
  cbn [ret] in H.
  destruct (extract_content_total env
              (combined_results
                 (results_from env b1 (english_query q) (u "en"))
                 (results_from env b2 (bangla_query q) (u "bn")) q)
              (format pid) w5) as (arts & w6 & E6).
  unfold bind at 1 in H. rewrite E6 in H.
  unfold bind at 1 in H.
  destruct (save_data env pid (u "content")
              (JArr (map dump_extraction arts)) w6)
    as [[[]|e7] w7] eqn:E7.
  2: { inversion H; subst. exists w6, (u "content").
       split; [apply valid_step_content|].
       eapply save_data_raise; [apply valid_step_content|exact E7]. }
  destruct (analyze_opposition_total env project_data arts w7)
    as (v & w8 & E8).
  unfold bind at 1 in H. rewrite E8 in H.
  unfold bind at 1 in H.
  destruct (save_data env pid (u "summary") (dump_analysis v) w8)
    as [[[]|e9] w9] eqn:E9.
  2: { inversion H; subst. exists w8, (u "summary").
       split; [apply valid_step_summary|].
       eapply save_data_raise; [apply valid_step_summary|exact E9]. }
  discriminate H.
Qed.

(** X19: [analyze_project] returns an error report only when one of the
    four JSON documents of the project could not be written, and the
    error of the report is the message of that write error; every other
    failure has been absorbed by the stage it occurred in. *)
Theorem error_report_comes_from_a_failed_write (env : Env)
    (project_data : gmap str pyval) (w : World) (pid name : pyval)
    (error : str) :
  fst (analyze_project env project_data w) = Ok (Failed pid name error) →
  ∃ w0 step e,
    step ∈ valid_steps
    ∧ open_write env w0 (step ++ u "/" ++ format pid ++ u ".json") = Raise e
    ∧ error = str_of_exn e.
Proof.
  unfold analyze_project, try_catch.
  destruct (analyze_project_try env _ project_data w) as [[r|e] w'] eqn:E;
    cbn; intros H.
  - apply analyze_project_try_ok in E as (q & b1 & b2 & arts & v & -> & _).
    inversion H.
  - inversion H; subst. clear H.
    apply analyze_project_try_raise in E as (w0 & step & Hstep & Hw).
    by exists w0, step, e.
Qed.

Lemma error_report_comes_from_a_failed_write_witness :
  fst (analyze_project Demo.disk_full Demo.project_351 Demo.start)
  = Ok (Failed (PStr (u "351"))
          (PStr (u "100 MW Solar Park by Dynamic Sun Energy Private Limited"))
          (u "No space left on device"))
  ∧ ∃ w0 step e,
      step ∈ valid_steps
      ∧ open_write Demo.disk_full w0
          (step ++ u "/" ++ format (PStr (u "351")) ++ u ".json") = Raise e
      ∧ u "No space left on device" = str_of_exn e.
Proof.
  assert (H : fst (analyze_project Demo.disk_full Demo.project_351 Demo.start)
              = Ok (Failed (PStr (u "351"))
                      (PStr (u "100 MW Solar Park by Dynamic Sun Energy Private Limited"))
                      (u "No space left on device")))
    by (vm_compute; reflexivity).
  split; [exact H|].
  exact (error_report_comes_from_a_failed_write _ _ _ _ _ _ H).
Defined.

(** ** Start-up *)

Lemma make_dirs_ok (mkdir : list str → str → result unit)
    (dirs : list str) :
  ∀ made u0, fst (make_dirs mkdir dirs made) = Ok u0 →
             snd (make_dirs mkdir dirs made) = made ++ dirs.
Proof.
  induction dirs as [|d rest IH]; intros made u0; cbn [make_dirs].
  - cbn. by rewrite app_nil_r.
  - destruct (mkdir made d); [|discriminate].
    intros H. rewrite (IH _ _ H). by rewrite <- app_assoc.
Qed.

(** X20: [__init__] succeeds only with both credentials set and
    non-empty, which the analyzer then holds, and with all four
    directories made, in the order search, content, result, summary.
    A missing or empty credential is an error that names it, the Gemini
    key first, raised before any directory is made. *)
Theorem init_needs_both_credentials (getenv : str → option str)
    (mkdir : list str → str → result unit) :
  (∀ a, fst (init getenv mkdir) = Ok a →
        getenv (u "GEMINI_API_KEY") = Some (gemini_api_key a)
        ∧ gemini_api_key a ≠ []
        ∧ getenv (u "BRIGHTDATA_SERP_API_KEY") = Some (brightdata_api_key a)
        ∧ brightdata_api_key a ≠ []
        ∧ snd (init getenv mkdir) = output_dirs)
  ∧ (unset (getenv (u "GEMINI_API_KEY")) = true →
     init getenv mkdir
     = (Raise (Exception
                 (u "GEMINI_API_KEY not found in environment variables")), []))
  ∧ (unset (getenv (u "GEMINI_API_KEY")) = false →
     unset (getenv (u "BRIGHTDATA_SERP_API_KEY")) = true →
     init getenv mkdir
     = (Raise (Exception
                 (u "BRIGHTDATA_SERP_API_KEY not found in environment variables")),
        [])).
Proof.
  unfold init. split; [|split].
  - intros a.
    destruct (getenv (u "GEMINI_API_KEY")) as [[|c g]|]; cbn [unset];
      try discriminate.
    destruct (getenv (u "BRIGHTDATA_SERP_API_KEY")) as [[|c' b]|];
      cbn [unset]; try discriminate.
    pose proof (make_dirs_ok mkdir output_dirs []) as Hok.
    destruct (make_dirs mkdir output_dirs []) as [[[]|e] made];
      cbn; intros H; inversion H; subst; cbn.
    repeat split; try done. by apply (Hok tt).
  - by intros ->.
  - by intros -> ->.
Qed.

Lemma init_needs_both_credentials_witness :
  fst (init Cases.both_keys Cases.mkdir_ok)
  = Ok {| gemini_api_key := u "g-key"; brightdata_api_key := u "b-key" |}
  ∧ Cases.both_keys (u "GEMINI_API_KEY") = Some (u "g-key")
  ∧ u "g-key" ≠ []
  ∧ Cases.both_keys (u "BRIGHTDATA_SERP_API_KEY") = Some (u "b-key")
  ∧ u "b-key" ≠ []
  ∧ snd (init Cases.both_keys Cases.mkdir_ok) = output_dirs.
Proof.
  assert (H : fst (init Cases.both_keys Cases.mkdir_ok)
              = Ok {| gemini_api_key := u "g-key";
                      brightdata_api_key := u "b-key" |})
    by (vm_compute; reflexivity).
  split; [exact H|].
  exact (proj1 (init_needs_both_credentials Cases.both_keys Cases.mkdir_ok)
           _ H).
Defined.

(** A search credential set to the empty string counts as missing. *)
Example init_rejects_empty_credential :
  init Cases.empty_search_key Cases.mkdir_ok
  = (Raise (Exception
              (u "BRIGHTDATA_SERP_API_KEY not found in environment variables")),
     []).
Proof. vm_compute. reflexivity. Qed.

(** ** The entry point *)

(** When every document can be written, the report is the normal
    one. *)
Lemma analyze_project_normal_when_writable (env : Env)
    (project_data : gmap str pyval) (w : World) :
  (∀ w0 path, open_write env w0 path = Ok tt) →
  ∃ analysis found extracted w',
    analyze_project env project_data w
    = (Ok (Analysed (pd_get project_data "project_id" "unknown")
             (pd_get project_data "project_name" "Unknown")
             analysis found extracted), w').
Proof.
  intros Hdisk. unfold analyze_project, try_catch.
  destruct (analyze_project_try env _ project_data w) as [[r|e] w'] eqn:E.
  - apply analyze_project_try_ok in E as (q & b1 & b2 & arts & v & -> & _).
    by do 4 eexists.
  - apply analyze_project_try_raise in E as (w0 & step & _ & Hw).
    rewrite Hdisk in Hw. discriminate Hw.
Qed.

(** X21: once the analyzer is set up, [main] can print no report but an
    error report: the only document it ever prints holds the project
    id, the project name and an error.  When every document can be
    written, so that the analysis ends normally, [main] prints the
    heading and then ends with the error of the JSON encoder, which
    cannot encode the [OppositionAnalysis] held by the report. *)
Theorem main_prints_only_error_reports (getenv : str → option str)
    (mkdir : list str → str → result unit) (env : Env)
    (dumps_other : str → result json) (w : World) (a : Analyzer) :
  fst (init getenv mkdir) = Ok a →
  (∀ doc, Doc doc ∈ snd (fst (main getenv mkdir env dumps_other w)) →
     ∃ error,
       doc = JObj [(u "project_id", JStr (u "351"));
                   (u "project_name",
                    JStr (u "100 MW Solar Park by Dynamic Sun Energy Private Limited"));
                   (u "error", JStr error)])
  ∧ ((∀ w0 path, open_write env w0 path = Ok tt) →
     fst (main getenv mkdir env dumps_other w)
     = (Raise (Exception
                 (u "Object of type OppositionAnalysis is not JSON serializable")),
        [Line (nl ++ u "Analysis Result:")])).
Proof.
  intros Hinit. unfold main.
  destruct (init getenv mkdir) as [[a'|e] made]; [|discriminate Hinit].
  split.
  - intros doc.
    destruct (analyze_project env test_project w) as [[report|e] w'] eqn:E;
      cbn; [|by intros H; apply elem_of_nil in H].
    assert (Hid : ∀ pid name, (∃ x y z, report = Analysed pid name x y z)
                              ∨ (∃ err, report = Failed pid name err) →
                  pid = PStr (u "351")
                  ∧ name = PStr (u "100 MW Solar Park by Dynamic Sun Energy Private Limited")).
    { intros pid name Hr. unfold analyze_project, try_catch in E.
      destruct (analyze_project_try env _ test_project w)
        as [[r|e] w1] eqn:Et.
      - apply analyze_project_try_ok in Et
          as (q & b1 & b2 & arts & v & -> & _).
        inversion E; subst report.
        destruct Hr as [(x & y & z & Hr)|(err & Hr)]; inversion Hr; done.
      - inversion E; subst report.
        destruct Hr as [(x & y & z & Hr)|(err & Hr)]; inversion Hr; done. }
    destruct report as [pid name v found extracted|pid name err].
    + destruct (Hid pid name) as [-> ->]; [left; by do 3 eexists|].
      cbn. intros H. apply list_elem_of_singleton in H. discriminate H.
    + destruct (Hid pid name) as [-> ->]; [right; by eexists|].
      cbn. intros H.
      apply elem_of_cons in H as [H|H]; [discriminate H|].
      apply list_elem_of_singleton in H. inversion H; subst. by exists err.
  - intros Hdisk.
    destruct (analyze_project_normal_when_writable env test_project w Hdisk)
      as (v & found & extracted & w' & E).
    rewrite E. reflexivity.
Qed.

Lemma main_prints_only_error_reports_witness :
  fst (init Cases.both_keys Cases.mkdir_ok)
  = Ok {| gemini_api_key := u "g-key"; brightdata_api_key := u "b-key" |}
  ∧ (∀ doc,
       Doc doc ∈ snd (fst (main Cases.both_keys Cases.mkdir_ok Demo.offline
                             Cases.no_other Demo.start)) →
       ∃ error,
         doc = JObj [(u "project_id", JStr (u "351"));
                     (u "project_name",
                      JStr (u "100 MW Solar Park by Dynamic Sun Energy Private Limited"));
                     (u "error", JStr error)])
  ∧ ((∀ w0 path, open_write Demo.offline w0 path = Ok tt) →
     fst (main Cases.both_keys Cases.mkdir_ok Demo.offline Cases.no_other
            Demo.start)
     = (Raise (Exception
                 (u "Object of type OppositionAnalysis is not JSON serializable")),
        [Line (nl ++ u "Analysis Result:")])).
Proof.
  assert (H : fst (init Cases.both_keys Cases.mkdir_ok)
              = Ok {| gemini_api_key := u "g-key";
                      brightdata_api_key := u "b-key" |})
    by (vm_compute; reflexivity).
  split; [exact H|].
  exact (main_prints_only_error_reports Cases.both_keys Cases.mkdir_ok
           Demo.offline Cases.no_other Demo.start _ H).
Defined.

(** With every service down and a writable disk, the analysis ends
    normally and [main] fails while printing it; with a full disk it
    prints the error report. *)
Example main_runs :
  fst (main Cases.both_keys Cases.mkdir_ok Demo.offline Cases.no_other
         Demo.start)
  = (Raise (Exception
              (u "Object of type OppositionAnalysis is not JSON serializable")),
     [Line (nl ++ u "Analysis Result:")])
  ∧ fst (main Cases.both_keys Cases.mkdir_ok Demo.disk_full Cases.no_other
           Demo.start)
    = (Ok tt,
       [Line (nl ++ u "Analysis Result:");
        Doc (JObj [(u "project_id", JStr (u "351"));
                   (u "project_name",
                    JStr (u "100 MW Solar Park by Dynamic Sun Energy Private Limited"));
                   (u "error", JStr (u "No space left on device"))])]).
Proof. vm_compute. done. Qed.

(** * Properties of the table scraper *)






Lemma contains_nonempty (sub s : str) :
  sub ≠ [] → Py.contains sub s = true → Py.truthy s = true.
Proof. destruct s, sub; cbn; done. Qed.

Lemma find_project_id_skips (pre rest : list (option str)) :
  Forall no_kid pre →
  Scraper.find_project_id (pre ++ rest) = Scraper.find_project_id rest.
Proof.
  induction 1 as [|href pre Hno _ IH]; [done|].
  cbn [app Scraper.find_project_id]. destruct href as [h|]; [|exact IH].
  by rewrite (Hno h eq_refl), andb_false_r.
Qed.

(** X23: the project id of a row is decided by its first link whose
    [href] holds [kid=]: when the id cut from that link is empty, the
    row gives no project, whatever the later links of the row hold. *)
Theorem row_with_empty_first_id_is_dropped (url : str) (r : Scraper.row)
    (pre post : list (option str)) (h : str) :
  Scraper.hrefs r = pre ++ Some h :: post →
  Forall no_kid pre →
  Py.contains (u "kid=") h = true →
  Scraper.kid_of h = Some [] →
  Scraper.project_of_row url r = None.
Proof.
  intros Hlinks Hpre Hkid Hid. unfold Scraper.project_of_row.
  destruct (10 <=? length (Scraper.cells r))%nat; [|done].
  rewrite Hlinks, (find_project_id_skips _ _ Hpre).
  cbn [Scraper.find_project_id].
  rewrite (contains_nonempty (u "kid=") h) by done.
  by rewrite Hkid, Hid.
Qed.

Lemma row_with_empty_first_id_is_dropped_witness :
  Scraper.hrefs Rows.empty_id_first
  = [None; Some (u "index.php?id=1")]
      ++ Some (u "index.php?id=06&kid=&x=1")
      :: [Some (u "index.php?id=06&kid=351")]
  ∧ Forall no_kid [None; Some (u "index.php?id=1")]
  ∧ Py.contains (u "kid=") (u "index.php?id=06&kid=&x=1") = true
  ∧ Scraper.kid_of (u "index.php?id=06&kid=&x=1") = Some []
  ∧ Scraper.kid_of (u "index.php?id=06&kid=351") = Some (u "351")
  ∧ Scraper.project_of_row (u "page-1") Rows.empty_id_first = None.
Proof.
  assert (H1 : Forall no_kid [None; Some (u "index.php?id=1")]).
  { constructor; [intros h H; discriminate H|].
    constructor; [|constructor].
    intros h H. inversion H; subst. vm_compute. reflexivity. }
  assert (H2 : Py.contains (u "kid=") (u "index.php?id=06&kid=&x=1") = true)
    by (vm_compute; reflexivity).
  assert (H3 : Scraper.kid_of (u "index.php?id=06&kid=&x=1") = Some [])
    by (vm_compute; reflexivity).
  split; [reflexivity|]. split; [exact H1|]. split; [exact H2|].
  split; [exact H3|]. split; [vm_compute; reflexivity|].
  exact (row_with_empty_first_id_is_dropped (u "page-1") Rows.empty_id_first
           [None; Some (u "index.php?id=1")]
           [Some (u "index.php?id=06&kid=351")]
           (u "index.php?id=06&kid=&x=1") eq_refl H1 H2 H3).
Defined.

(** ** Detail keys and CSV columns *)

Lemma clean_key_idempotent (key : str) :
  Scraper.clean_key (Scraper.clean_key key) = Scraper.clean_key key.
Proof.
  unfold Scraper.clean_key. rewrite <- list_fmap_compose.
  apply list_fmap_ext. intros i c _. cbn.
  destruct (Scraper.is_word c) eqn:E; [by rewrite E|done].
Qed.

Lemma clean_key_nonempty (key : str) :
  key ≠ [] → Scraper.clean_key key ≠ [].
Proof. by destruct key. Qed.

Lemma truthy_true_nonempty (s : str) : Py.truthy s = true → s ≠ [].
Proof. by destruct s. Qed.

Lemma dict_set_clean (key value : str) (d : list (str * str)) :
  clean_entry (key, value) → Forall clean_entry d →
  Forall clean_entry (Scraper.dict_set key value d).
Proof.
  intros Hnew. induction 1 as [|[k v] rest Hkv Hrest IH];
    cbn [Scraper.dict_set].
  - by constructor.
  - unfold Py.str_eqb. case_bool_decide as Hk.
    + subst k. by constructor.
    + by constructor.
Qed.

Lemma detail_of_row_clean (cell_texts : list str) (d : list (str * str)) :
  Forall clean_entry d → Forall clean_entry (Scraper.detail_of_row cell_texts d).
Proof.
  intros Hd. unfold Scraper.detail_of_row.
  set (d1 := if (3 <=? length cell_texts)%nat then _ else d).
  assert (H1 : Forall clean_entry d1).
  { subst d1. destruct (3 <=? length cell_texts)%nat; [|done].
    destruct (Py.str_eqb _ (u ":")); [|done].
    destruct (Py.truthy (Scraper.cell cell_texts 0)) eqn:Hk; [|done].
    destruct (Py.truthy (Scraper.cell cell_texts 2)) eqn:Hv; [|done].
    cbn [andb]. destruct (negb _); [|done].
    apply dict_set_clean; [|done].
    repeat split; cbn.
    - apply clean_key_idempotent.
    - by apply clean_key_nonempty, truthy_true_nonempty.
    - by apply truthy_true_nonempty. }
  clearbody d1.
  destruct (length cell_texts =? 1)%nat; [|done].
  destruct (Py.contains (u ":") (Scraper.cell cell_texts 0)
            && (length (Scraper.split (u ":") (Scraper.cell cell_texts 0))
                =? 2)%nat); [|done].
  destruct (Scraper.split_once _ _) as [|key [|value [|]]]; try done.
  destruct (Py.truthy (Py.strip key)) eqn:Hk; [|exact H1].
  destruct (Py.truthy (Py.strip value)) eqn:Hv; [|exact H1].
  cbn [andb]. destruct (negb _); [|exact H1].
  apply dict_set_clean; [|exact H1].
  repeat split; cbn.
  - apply clean_key_idempotent.
  - by apply clean_key_nonempty, truthy_true_nonempty.
  - by apply truthy_true_nonempty.
Qed.

(** X24: every entry of the details that [scrape_project_details] reads
    from the rows of a page has a non-empty key made of letters, digits
    and underscores only and a non-empty value; cleaning such a key
    again changes nothing, so the column [save_to_csv] gives it is
    [detail_] followed by the key itself. *)
Theorem detail_keys_are_clean (rows : list (list str)) :
  Forall (λ kv, clean_entry kv
                ∧ Forall (λ c, Scraper.is_word c = true) kv.1
                ∧ Scraper.detail_column kv.1 = u "detail_" ++ kv.1)
    (Scraper.details_of_rows rows).
Proof.
  assert (H : Forall clean_entry (Scraper.details_of_rows rows)).
  { unfold Scraper.details_of_rows.
    assert (Hgen : ∀ d, Forall clean_entry d →
              Forall clean_entry
                (foldl (λ details cell_texts,
                          Scraper.detail_of_row cell_texts details) d rows)).
    { induction rows as [|r rows IH]; intros d Hd; [done|].
      cbn [foldl]. by apply IH, detail_of_row_clean. }
    apply Hgen. constructor. }
  eapply Forall_impl; [exact H|].
  intros [k v] (Hk & Hne & Hv). cbn [fst snd] in *.
  split; [done|]. split.
  - rewrite <- Hk. unfold Scraper.clean_key. apply Forall_fmap.
    apply Forall_forall. intros c _. cbn.
    by destruct (Scraper.is_word c) eqn:E.
  - unfold Scraper.detail_column. by rewrite Hk.
Qed.

Lemma detail_column_not_fixed (key : str) :
  Scraper.detail_column key ∉ fixed_names.
Proof.
  unfold fixed_names, Scraper.detail_column. intros H.
  repeat (apply elem_of_cons in H as [H|H];
          [cbv in H; discriminate H|]).
  by apply elem_of_nil in H.
Qed.

Lemma dict_set_after_fixed (key value : str) (fixed extra : list (str * str)) :
  key ∉ fixed.*1 →
  Scraper.dict_set key value (fixed ++ extra)
  = fixed ++ Scraper.dict_set key value extra.
Proof.
  induction fixed as [|[k v] fixed IH]; intros Hk; [done|].
  cbn [app Scraper.dict_set]. unfold Py.str_eqb.
  rewrite bool_decide_eq_false_2.
  - rewrite IH; [done|]. intros Hin. apply Hk. cbn. by right.
  - intros ->. apply Hk. cbn. by left.
Qed.

(** X25: the details of a project never overwrite one of its thirteen
    fixed columns: the row [save_to_csv] builds starts with the fixed
    columns, in their order and with the values of the project, and
    the detail columns follow. *)
Theorem csv_row_keeps_fixed_columns (p : Scraper.project) :
  ∃ detail_columns,
    Scraper.csv_row p = Scraper.fixed_columns p ++ detail_columns
    ∧ (Scraper.fixed_columns p).*1 = fixed_names
    ∧ Forall (λ kv, ∃ key, kv.1 = u "detail_" ++ Scraper.clean_key key)
        detail_columns.
Proof.
  unfold Scraper.csv_row.
  assert (Hnames : (Scraper.fixed_columns p).*1 = fixed_names) by done.
  assert (Hgen : ∀ ds extra,
            Forall (λ kv, ∃ key, kv.1 = u "detail_" ++ Scraper.clean_key key)
              extra →
            ∃ extra',
              foldl (λ row kv,
                       Scraper.dict_set (Scraper.detail_column kv.1) kv.2 row)
                (Scraper.fixed_columns p ++ extra) ds
              = Scraper.fixed_columns p ++ extra'
              ∧ Forall (λ kv, ∃ key,
                          kv.1 = u "detail_" ++ Scraper.clean_key key)
                  extra').
  { induction ds as [|[k v] ds IH]; intros extra Hextra; [by exists extra|].
    cbn [foldl fst snd].
    rewrite dict_set_after_fixed
      by (rewrite Hnames; apply detail_column_not_fixed).
    apply IH. clear IH.
    induction Hextra as [|[k' v'] rest Hkv Hrest IH'];
      cbn [Scraper.dict_set].
    - constructor; [by exists k|constructor].
    - unfold Py.str_eqb. case_bool_decide; constructor; done. }
  destruct (Hgen (default [] (Scraper.details p)) []) as (extra & E & Hex);
    [constructor|].
  rewrite app_nil_r in E. by exists extra.
Qed.

(** The details of the example page and the CSV row they give. *)
Example details_and_csv_row :
  Scraper.details_of_rows Details.page_rows
  = [(u "System_Owner", u "BPDB");
     (u "Latitude__Longitude", u "24.0, 89.2");
     (u "Grid_Status", u "On-grid")]
  ∧ drop 13 (Scraper.csv_row Details.scraped)
    = [(u "detail_System_Owner", u "BPDB");
       (u "detail_Latitude__Longitude", u "24.0, 89.2");
       (u "detail_Grid_Status", u "On-grid")].
Proof. vm_compute. done. Qed.

(** * What the dashboard shows for the verdicts of the pipeline *)




End Effects.
